(** * ZeroSum frontend: RPC adapter and game-event hooks

    A shallow embedding of the two TypeScript/JavaScript modules of the
    ZeroSum frontend that carry behaviour of their own:

    - the provider/contract adapter ([getProvider], [getContract],
      [getViemClient], [getViemWalletClient]);
    - the event hooks ([useGameEvents] with its [handleEvent],
      [useGameEventRefresh], [useGameEventHistory] with its [fetchEvents]).

    Library calls (ethers, viem, wagmi, react-hot-toast, console) are the
    boundary of the model: constructors and queries of the libraries are
    members of a class and either return a value or throw, and what the code
    prints, toasts or throws is recorded in a trace. *)

From Stdlib Require Import ZArith List String Bool Lia.
Import ListNotations.
Local Open Scope string_scope.
Local Open Scope list_scope.
Local Open Scope Z_scope.

(** * JavaScript values and numbers *)
Module JS.

(** A JavaScript [number], as far as strict equality and truthiness see it.
    [NInt z] is the finite double whose value is the integer [z] (both signed
    zeros are [NInt 0], which [===] identifies), for the [z] that a double can
    hold: those with [BigIntToNumber z = NInt z] below. [NFrac t] is a finite
    double that is not an integer, named by a tag. *)
Inductive number : Type :=
| NInt (z : Z)
| NFrac (tag : positive)
| NaN
| PosInf
| NegInf.

(** [a === b] on two numbers: [NaN] equals nothing. *)
Definition strict_eq (a b : number) : bool :=
  match a, b with
  | NInt x, NInt y => Z.eqb x y
  | NFrac s, NFrac t => Pos.eqb s t
  | PosInf, PosInf => true
  | NegInf, NegInf => true
  | _, _ => false
  end.

(** Round a non-negative integer to the nearest integer with a 53-bit
    significand, ties to even: the rounding of IEEE 754 binary64. *)
Definition round53 (m : Z) : Z :=
  let k := Z.log2 m - 52 in
  if k <=? 0 then m
  else
    let q := Z.shiftr m k in
    let r := Z.land m (Z.ones k) in
    let half := Z.shiftl 1 (k - 1) in
    let q' := if (half <? r) || ((r =? half) && Z.odd q) then q + 1 else q in
    Z.shiftl q' k.

(** The largest finite double, [(2^53 - 1) * 2^971]. *)
Definition max_double : Z := (2 ^ 53 - 1) * 2 ^ 971.

(** [Number(b)] for a bigint [b]. *)
Definition BigIntToNumber (z : Z) : number :=
  let r := round53 (Z.abs z) in
  if max_double <? r then (if 0 <? z then PosInf else NegInf)
  else NInt (Z.sgn z * r).

(** [Number(v)] where [v] is a bigint or [undefined] ([None]). *)
Definition Number (v : option Z) : number :=
  match v with
  | Some z => BigIntToNumber z
  | None => NaN
  end.

(** The values that flow through the code as untyped data. [VObject] is an
    object, named by a reference. *)
Inductive Value : Type :=
| VUndefined
| VNull
| VBool (b : bool)
| VNumber (n : number)
| VBigInt (z : Z)
| VString (s : string)
| VObject (ref : positive).

(** ToBoolean. *)
Definition truthy (v : Value) : bool :=
  match v with
  | VUndefined | VNull => false
  | VBool b => b
  | VNumber (NInt z) => negb (Z.eqb z 0)
  | VNumber NaN => false
  | VNumber _ => true
  | VBigInt z => negb (Z.eqb z 0)
  | VString s => negb (String.eqb s "")
  | VObject _ => true
  end.

(** [v === n] for a number [n]: only a number can be strictly equal to it. *)
Definition strict_eq_number (v : Value) (n : number) : bool :=
  match v with
  | VNumber m => strict_eq m n
  | _ => false
  end.

(** A template literal, kept as its pieces: the literal text and the
    interpolated values (rendered by ToString when the string is built). *)
Inductive Piece : Type :=
| Lit (s : string)
| Interp (v : Value).

Definition Template : Type := list Piece.

End JS.

(** * Effects: a trace of actions and an exception *)
Module Eff.

(** A computation that has performed the actions of its trace, in order, and
    then either returned a value or thrown. *)
Definition M (Act Err A : Type) : Type := (list Act * (Err + A))%type.

Definition ret {Act Err A : Type} (x : A) : M Act Err A := ([], inr x).

Definition bind {Act Err A B : Type}
    (m : M Act Err A) (f : A -> M Act Err B) : M Act Err B :=
  match m with
  | (t, inl e) => (t, inl e)
  | (t, inr a) => let (t', r) := f a in (t ++ t', r)
  end.

Definition emit {Act Err : Type} (a : Act) : M Act Err unit := ([a], inr tt).

Definition throw {Act Err A : Type} (e : Err) : M Act Err A := ([], inl e).

(** The outcome of a library call, which performs no action of the model. *)
Definition call {Act Err A : Type} (r : Err + A) : M Act Err A := ([], r).

(** [try { m } catch (e) { h e }]. *)
Definition try_catch {Act Err A : Type}
    (m : M Act Err A) (h : Err -> M Act Err A) : M Act Err A :=
  match m with
  | (t, inl e) => let (t', r) := h e in (t ++ t', r)
  | (t, inr a) => (t, inr a)
  end.

(** [Array.prototype.forEach]: the callback runs on each element in order; a
    throw ends the loop. *)
Fixpoint forEach {Act Err A : Type}
    (f : A -> M Act Err unit) (l : list A) : M Act Err unit :=
  match l with
  | [] => ret tt
  | x :: xs => bind (f x) (fun _ => forEach f xs)
  end.

(** [Array.prototype.map] with a callback that may throw. *)
Fixpoint mapM {Act Err A B : Type}
    (f : A -> M Act Err B) (l : list A) : M Act Err (list B) :=
  match l with
  | [] => ret []
  | x :: xs =>
      bind (f x) (fun y => bind (mapM f xs) (fun ys => ret (y :: ys)))
  end.

Definition trace {Act Err A : Type} (m : M Act Err A) : list Act := fst m.

Definition outcome {Act Err A : Type} (m : M Act Err A) : Err + A := snd m.

End Eff.

Declare Scope eff_scope.
Delimit Scope eff_scope with eff.
Notation "x <- c ;; k" := (Eff.bind c (fun x => k))
  (at level 61, c at next level, right associativity) : eff_scope.
Notation "c ;; k" := (Eff.bind c (fun _ => k))
  (at level 61, right associativity) : eff_scope.

(** * The provider/contract adapter *)
Module Adapter.
Import JS Eff.
Local Open Scope eff_scope.

(** What the adapter prints. [ConsoleLogCall] is the line of [getViemClient]
    that prints the object [{ chainId, hasConfig }]. *)
Inductive Action (Error : Type) : Type :=
| ConsoleLog (msg : Template)
| ConsoleLogCall (msg : string) (chainId : Value) (hasConfig : bool)
| ConsoleError (msg : string) (error : Error).

Arguments ConsoleLog {Error} msg.
Arguments ConsoleLogCall {Error} msg chainId hasConfig.
Arguments ConsoleError {Error} msg error.

Definition mainnetUrl : string := "https://mainnet.base.org".
Definition sepoliaUrl : string := "https://sepolia.base.org".

(** The URL the specification assigns to a chain identifier: the mainnet URL
    for the number 8453, the testnet URL for everything else, an absent
    identifier ([VUndefined]) included. *)
Definition expectedRpcUrl (chainId : Value) : string :=
  match chainId with
  | VNumber (NInt 8453) => mainnetUrl
  | _ => sepoliaUrl
  end.

(** The libraries the adapter calls: ethers' provider and contract
    constructors, viem's [http] and [createPublicClient], wagmi's two chain
    objects with their [name] strings, and [getConnectorClient]. A call
    returns a value or throws. [objectToString] is what converting the object
    of a reference to a string gives: the string, or what the conversion
    throws (a [TypeError] for an object without a string conversion). *)
Class Libraries : Type := {
  Error : Type;
  Provider : Type;
  ContractT : Type;
  Abi : Type;
  Chain : Type;
  Transport : Type;
  PublicClient : Type;
  WalletClient : Type;
  JsonRpcProvider : string -> Error + Provider;
  Contract : Value -> Abi -> Provider -> Error + ContractT;
  base : Chain;
  baseSepolia : Chain;
  chain_name : Chain -> string;
  http : string -> Error + Transport;
  createPublicClient : Chain -> Transport -> Error + PublicClient;
  getConnectorClient : Value -> Value -> Error + WalletClient;
  objectToString : positive -> Error + string
}.

Definition Run `{Libraries} (A : Type) : Type := M (Action Error) Error A.

(** One interpolation of a template literal: an object is converted to its
    string, which may throw; every other value converts without fail and is
    kept as it is. *)
Definition interpolate `{Libraries} (v : Value) : Error + Piece :=
  match v with
  | VObject ref =>
      match objectToString ref with
      | inl e => inl e
      | inr s => inr (Interp (VString s))
      end
  | _ => inr (Interp v)
  end.

(** The evaluation of a template literal, left to right: it throws what the
    first failing interpolation throws. *)
Fixpoint template `{Libraries} (pieces : list Piece) : Run Template :=
  match pieces with
  | [] => ret []
  | Lit s :: rest =>
      evaluated <- template rest ;;
      ret (Lit s :: evaluated)
  | Interp v :: rest =>
      piece <- call (interpolate v) ;;
      evaluated <- template rest ;;
      ret (piece :: evaluated)
  end.

(** [console.log] of a template literal: the string is built, then
    printed. *)
Definition consoleLog `{Libraries} (pieces : list Piece) : Run unit :=
  msg <- template pieces ;;
  emit (ConsoleLog msg).

(** [getProvider({ chainId } = {})]; an absent argument or field is
    [VUndefined]. *)
Definition getProvider `{Libraries} (chainId : Value) : Run Provider :=
  let targetChainId := if truthy chainId then chainId else VNumber (NInt 84532) in
  let rpcUrl :=
    if strict_eq_number targetChainId (NInt 8453)
    then "https://mainnet.base.org"
    else "https://sepolia.base.org" in
  consoleLog [Lit "🔗 Creating ethers provider for chain "; Interp targetChainId] ;;
  consoleLog [Lit "🔗 RPC URL: "; Interp (VString rpcUrl)] ;;
  try_catch
    (provider <- call (JsonRpcProvider rpcUrl) ;;
     emit (ConsoleLog [Lit "✅ Ethers provider created successfully"]) ;;
     ret provider)
    (fun error =>
       emit (ConsoleError "❌ Failed to create ethers provider:" error) ;;
       throw error).

(** [getEthersProvider(config, { chainId } = {})]. *)
Definition getEthersProvider `{Libraries} (config chainId : Value) : Run Provider :=
  getProvider chainId.

(** [getContract(address, abi, { chainId } = {})]. *)
Definition getContract `{Libraries} (address : Value) (abi : Abi) (chainId : Value)
    : Run ContractT :=
  provider <- getProvider chainId ;;
  consoleLog [Lit "📄 Creating contract at "; Interp address] ;;
  try_catch
    (contract <- call (Contract address abi provider) ;;
     emit (ConsoleLog [Lit "✅ Contract created successfully"]) ;;
     ret contract)
    (fun error =>
       emit (ConsoleError "❌ Failed to create contract:" error) ;;
       throw error).

(** [getViemClient(wagmiConfig = null, { chainId } = {})]. *)
Definition getViemClient `{Libraries} (wagmiConfig chainId : Value) : Run PublicClient :=
  emit (ConsoleLogCall "🔧 getViemClient called with:" chainId (truthy wagmiConfig)) ;;
  let targetChainId := if truthy chainId then chainId else VNumber (NInt 84532) in
  let chain := if strict_eq_number targetChainId (NInt 8453) then base else baseSepolia in
  let rpcUrl :=
    if strict_eq_number targetChainId (NInt 8453)
    then "https://mainnet.base.org"
    else "https://sepolia.base.org" in
  consoleLog [Lit "🔗 Creating viem client for chain "; Interp targetChainId;
              Lit " ("; Interp (VString (chain_name chain)); Lit ")"] ;;
  consoleLog [Lit "🔗 RPC URL: "; Interp (VString rpcUrl)] ;;
  try_catch
    (transport <- call (http rpcUrl) ;;
     client <- call (createPublicClient chain transport) ;;
     emit (ConsoleLog [Lit "✅ Viem client created successfully"]) ;;
     ret client)
    (fun error =>
       emit (ConsoleError "❌ Failed to create viem client:" error) ;;
       throw error).

(** [async getViemWalletClient(wagmiConfig, { chainId } = {})]: the awaited
    promise of [getConnectorClient] either resolves or rejects, and a
    rejection is thrown at the [await]. *)
Definition getViemWalletClient `{Libraries} (wagmiConfig chainId : Value)
    : Run WalletClient :=
  try_catch
    (emit (ConsoleLog [Lit "🔧 Getting viem wallet client for write operations..."]) ;;
     walletClient <- call (getConnectorClient wagmiConfig chainId) ;;
     emit (ConsoleLog [Lit "✅ Viem wallet client obtained"]) ;;
     ret walletClient)
    (fun error =>
       emit (ConsoleError "❌ Failed to get viem wallet client:" error) ;;
       throw error).

(** The value of [chainId || 84532]. *)
Definition targetChainIdOf (chainId : Value) : Value :=
  if truthy chainId then chainId else VNumber (NInt 84532).

(** The chain object the specification pairs with a chain identifier. *)
Definition expectedChain `{Libraries} (chainId : Value) : Chain :=
  match chainId with
  | VNumber (NInt 8453) => base
  | _ => baseSepolia
  end.

(** What the libraries do when asked for a contract: the provider is built
    first, then the contract on it. *)
Definition contractConstruction `{Libraries}
    (address : Value) (abi : Abi) (chainId : Value) : Error + ContractT :=
  match JsonRpcProvider (expectedRpcUrl chainId) with
  | inl e => inl e
  | inr provider => Contract address abi provider
  end.

(** What the libraries do when asked for a public client: the transport is
    built first, then the client on it. *)
Definition clientConstruction `{Libraries} (chainId : Value) : Error + PublicClient :=
  match http (expectedRpcUrl chainId) with
  | inl e => inl e
  | inr transport => createPublicClient (expectedChain chainId) transport
  end.

(** A run that threw has logged the thrown value with [console.error] as its
    last action. *)
Definition errorLogged `{Libraries} {A : Type} (m : Run A) : Prop :=
  match outcome m with
  | inl e => exists pre msg, trace m = pre ++ [ConsoleError msg e]
  | inr _ => True
  end.

End Adapter.

(** * The game-event hooks *)
Module GameEvents.
Import JS Eff.
Local Open Scope eff_scope.

(** [type GameEventType]: seven tags. *)
Inductive GameEventType : Type :=
| GameCreated
| PlayerJoined
| MoveMade
| GameFinished
| NumberGenerated
| TimeoutHandled
| GameCancelled.

(** The string a tag is at run time. *)
Definition tag (t : GameEventType) : string :=
  match t with
  | GameCreated => "GameCreated"
  | PlayerJoined => "PlayerJoined"
  | MoveMade => "MoveMade"
  | GameFinished => "GameFinished"
  | NumberGenerated => "NumberGenerated"
  | TimeoutHandled => "TimeoutHandled"
  | GameCancelled => "GameCancelled"
  end.

(** The decoded arguments of an event: the [gameId] field, a bigint when
    present, and the other fields by name. *)
Record Args : Type := {
  args_gameId : option Z;
  args_fields : list (string * Value)
}.

(** [args.name] for a field other than [gameId]; a missing field reads as
    [undefined]. *)
Fixpoint lookup (fields : list (string * Value)) (name : string) : Value :=
  match fields with
  | [] => VUndefined
  | (k, v) :: rest => if String.eqb k name then v else lookup rest name
  end.

Definition field (a : Args) (name : string) : Value := lookup (args_fields a) name.

(** [interface GameEventData]. At run time [type] is a string and [gameId]
    is whatever the log carried, [undefined] ([None]) included. *)
Record GameEventData : Type := {
  type : string;
  gameId : option Z;
  args : Args;
  blockNumber : Z;
  transactionHash : string
}.

(** A log as a live subscription delivers it, decoded by the library. *)
Record Log : Type := {
  log_args : Args;
  log_blockNumber : Z;
  log_transactionHash : string
}.

(** A log as the range query returns it, still encoded. *)
Record RawLog : Type := {
  data : string;
  topics : list string;
  raw_blockNumber : Z;
  raw_transactionHash : string
}.

(** What [decodeEventLog] returns; [decoded.args] may be [undefined]. *)
Record Decoded : Type := {
  decoded_eventName : string;
  decoded_args : option Args
}.

Inductive BlockTag : Type := latest.

Inductive ToastKind : Type := success | warning | info.

(** What the hooks show and print. *)
Inductive Action (Error : Type) : Type :=
| Toast (kind : ToastKind) (text : Template)
| ConsoleLog (msg : Template) (payload : option GameEventData)
| ConsoleError (msg : string) (error : Error).

Arguments Toast {Error} kind text.
Arguments ConsoleLog {Error} msg payload.
Arguments ConsoleError {Error} msg error.

(** The methods react-hot-toast's [toast] has among the three the hooks
    call: [toast.success] is one; [toast.warning] and [toast.info] are not
    (the library has [success], [error], [loading], [custom], [promise],
    [dismiss] and [remove]). *)
Definition toastHas (kind : ToastKind) : bool :=
  match kind with
  | success => true
  | warning => false
  | info => false
  end.

(** What the hooks take from their surroundings: the contract address that
    [useContractAddress('ZERO_SUM_SIMPLIFIED')] returns, the ABI constant, and
    what a call of [decodeEventLog] does. The module calls [decodeEventLog]
    without importing or defining it: see [moduleAsWritten] below for the
    surroundings in which the name is unbound. [TypeError] is the value thrown
    when a property of [undefined] is read or [undefined] is called. *)
Class Env : Type := {
  Error : Type;
  Address : Type;
  Abi : Type;
  gameContractAddress : Address;
  ZeroSumSimplifiedABI : Abi;
  decodeEventLog : Abi -> string -> list string -> Error + Decoded;
  TypeError : Error
}.

Definition Run `{Env} (A : Type) : Type := M (Action Error) Error A.

(** [type EventCallback]. *)
Definition EventCallback `{Env} : Type := GameEventData -> Run unit.

(** The [options] argument of [useGameEvents]; a missing field is [None]. *)
Record Options : Type := {
  opt_showToasts : option bool;
  opt_enabled : option bool
}.

(** The argument of one [useWatchContractEvent] call. *)
Record Watch `{Env} : Type := {
  address : Address;
  abi : Abi;
  eventName : GameEventType;
  onLogs : list Log -> Run unit;
  enabled : bool
}.

(** The argument of [publicClient.getLogs]. *)
Record GetLogsParams `{Env} : Type := {
  gl_address : Address;
  fromBlock : Z;
  toBlock : BlockTag
}.

(** The public client of [usePublicClient()], by the one method used. The
    awaited promise resolves to the logs or rejects. *)
Record PublicClient `{Env} : Type := {
  getLogs : GetLogsParams -> Error + list RawLog
}.

(** [toast.kind(text)]: the toast is shown when [toast] has the method;
    calling a method it lacks is calling [undefined], which throws a
    [TypeError]. *)
Definition toast `{Env} (kind : ToastKind) (text : Template) : Run unit :=
  if toastHas kind then emit (Toast kind text) else throw TypeError.

(** [handleEvent(eventName, logs)], with the values the callback closes over
    ([gameId], [onEvent], [showToasts]) as arguments. The fields the
    [MoveMade] text interpolates are values decoded against the ABI, which
    convert to a string without fail. *)
Definition handleEvent `{Env} (gameId : option number) (onEvent : option EventCallback)
    (showToasts : bool) (eventName : GameEventType) (logs : list Log) : Run unit :=
  forEach
    (fun log =>
       let eventGameId := args_gameId (log_args log) in
       if match gameId with
          | Some g => negb (strict_eq (Number eventGameId) g)
          | None => false
          end
       then ret tt
       else
         let eventData :=
           {| type := tag eventName;
              gameId := eventGameId;
              args := log_args log;
              blockNumber := log_blockNumber log;
              transactionHash := log_transactionHash log |} in
         (if showToasts
          then
            match eventName with
            | PlayerJoined => toast success [Lit "🎮 Player joined the game!"]
            | MoveMade =>
                toast success
                  [Lit "🎯 Move made: "; Interp (field (log_args log) "subtraction");
                   Lit " → "; Interp (field (log_args log) "newNumber")]
            | GameFinished => toast success [Lit "🎉 Game finished!"]
            | NumberGenerated => toast success [Lit "🎲 Game started! Number generated."]
            | TimeoutHandled => toast warning [Lit "⏰ Timeout handled"]
            | GameCancelled => toast info [Lit "❌ Game cancelled"]
            | GameCreated => ret tt
            end
          else ret tt) ;;
         match onEvent with
         | Some callback => callback eventData
         | None => ret tt
         end ;;
         emit (ConsoleLog [Lit "📡 Event: "; Interp (VString (tag eventName))]
                 (Some eventData)))
    logs.

(** [useGameEvents(gameId?, onEvent?, options?)]: the six
    [useWatchContractEvent] calls, in order. *)
Definition useGameEvents `{Env} (gameId : option number) (onEvent : option EventCallback)
    (options : option Options) : list Watch :=
  let showToasts :=
    match options with
    | Some {| opt_showToasts := Some b |} => b
    | _ => true
    end in
  let enabled :=
    match options with
    | Some {| opt_enabled := Some b |} => b
    | _ => true
    end in
  [ {| address := gameContractAddress; abi := ZeroSumSimplifiedABI;
       eventName := PlayerJoined;
       onLogs := fun logs => handleEvent gameId onEvent showToasts PlayerJoined logs;
       enabled := enabled |};
    {| address := gameContractAddress; abi := ZeroSumSimplifiedABI;
       eventName := MoveMade;
       onLogs := fun logs => handleEvent gameId onEvent showToasts MoveMade logs;
       enabled := enabled |};
    {| address := gameContractAddress; abi := ZeroSumSimplifiedABI;
       eventName := GameFinished;
       onLogs := fun logs => handleEvent gameId onEvent showToasts GameFinished logs;
       enabled := enabled |};
    {| address := gameContractAddress; abi := ZeroSumSimplifiedABI;
       eventName := NumberGenerated;
       onLogs := fun logs => handleEvent gameId onEvent showToasts NumberGenerated logs;
       enabled := enabled |};
    {| address := gameContractAddress; abi := ZeroSumSimplifiedABI;
       eventName := TimeoutHandled;
       onLogs := fun logs => handleEvent gameId onEvent showToasts TimeoutHandled logs;
       enabled := enabled |};
    {| address := gameContractAddress; abi := ZeroSumSimplifiedABI;
       eventName := GameCancelled;
       onLogs := fun logs => handleEvent gameId onEvent showToasts GameCancelled logs;
       enabled := enabled |} ].

(** The callback [useGameEventRefresh] hands to [useGameEvents]. *)
Definition refreshCallback `{Env} (gameId : number) (onRefresh : Run unit)
    : EventCallback :=
  fun event =>
    emit (ConsoleLog [Lit "🔄 Auto-refreshing game "; Interp (VNumber gameId);
                      Lit " due to "; Interp (VString (type event))] None) ;;
    onRefresh.

(** [useGameEventRefresh(gameId, onRefresh)]. *)
Definition useGameEventRefresh `{Env} (gameId : number) (onRefresh : Run unit)
    : list Watch :=
  useGameEvents (Some gameId) (Some (refreshCallback gameId onRefresh)) None.

(** [Array.prototype.filter] with a callback in the effect type. *)
Fixpoint filterM {Act Err A : Type}
    (f : A -> M Act Err bool) (l : list A) : M Act Err (list A) :=
  match l with
  | [] => ret []
  | x :: xs =>
      b <- f x ;;
      ys <- filterM f xs ;;
      ret (if b then x :: ys else ys)
  end.

(** The callback of [logs.filter]. The value of
    [decoded.args?.gameId && Number(decoded.args.gameId) === gameId] is read
    by [filter] as a boolean: [undefined] and [0n] are falsy. *)
Definition isGameLog `{Env} (gameId : number) (log : RawLog) : Run bool :=
  try_catch
    (decoded <- call (decodeEventLog ZeroSumSimplifiedABI (data log) (topics log)) ;;
     ret match decoded_args decoded with
         | Some a =>
             match args_gameId a with
             | Some id => truthy (VBigInt id) && strict_eq (Number (Some id)) gameId
             | None => false
             end
         | None => false
         end)
    (fun _ => ret false).

(** The callback of [.map]. *)
Definition toEventData `{Env} (log : RawLog) : Run GameEventData :=
  decoded <- call (decodeEventLog ZeroSumSimplifiedABI (data log) (topics log)) ;;
  match decoded_args decoded with
  | Some a =>
      ret {| type := decoded_eventName decoded;
             gameId := args_gameId a;
             args := a;
             blockNumber := raw_blockNumber log;
             transactionHash := raw_transactionHash log |}
  | None => throw TypeError
  end.

(** The body of the [try] block of [fetchEvents]. *)
Definition fetchBody `{Env} (client : PublicClient) (gameId : number) (fromBlock : Z)
    : Run (list GameEventData) :=
  logs <- call (getLogs client {| gl_address := gameContractAddress;
                                  fromBlock := fromBlock;
                                  toBlock := latest |}) ;;
  kept <- filterM (isGameLog gameId) logs ;;
  gameEvents <- mapM toEventData kept ;;
  ret gameEvents.

(** [fetchEvents()], with the values it closes over as arguments;
    [publicClient] is [None] when [usePublicClient()] returned [undefined]. *)
Definition fetchEvents `{Env} (publicClient : option PublicClient) (gameId : number)
    (fromBlock : Z) : Run (list GameEventData) :=
  match publicClient with
  | None => ret []
  | Some client =>
      try_catch
        (fetchBody client gameId fromBlock)
        (fun error =>
           emit (ConsoleError "Error fetching event history:" error) ;;
           ret [])
  end.

(** [useGameEventHistory(gameId, fromBlock = 0n)] returns [{ fetchEvents }]. *)
Definition useGameEventHistory `{Env} (publicClient : option PublicClient)
    (gameId : number) (fromBlock : option Z) : Run (list GameEventData) :=
  fetchEvents publicClient gameId
    match fromBlock with
    | Some b => b
    | None => 0
    end.

(** The surroundings of the module as it is written: [decodeEventLog] is
    bound by no import and no declaration, so every call of it throws a
    [ReferenceError]. *)
Definition moduleAsWritten (env : Env) (referenceError : @Error env) : Env :=
  {| Error := @Error env;
     Address := @Address env;
     Abi := @Abi env;
     gameContractAddress := @gameContractAddress env;
     ZeroSumSimplifiedABI := @ZeroSumSimplifiedABI env;
     decodeEventLog := fun _ _ _ => inl referenceError;
     TypeError := @TypeError env |}.

(** ** What the specification says, in its own terms *)

(** The six tags the subscription hook listens to. *)
Definition listenedTags : list GameEventType :=
  [PlayerJoined; MoveMade; GameFinished; NumberGenerated; TimeoutHandled; GameCancelled].



(** The records a run has printed with [console.log]. *)
Definition printedEvents {Error : Type} (t : list (Action Error)) : list GameEventData :=
  flat_map
    (fun a =>
       match a with
       | ConsoleLog _ (Some event) => [event]
       | _ => []
       end)
    t.

(** A decoded bigint identifier equals the target as integers. *)
Definition sameId (id : Z) (target : number) : bool :=
  match target with
  | NInt z => Z.eqb id z
  | _ => false
  end.

(** A decoded bigint identifier equals the target once converted by
    [Number]. *)
Definition sameAsNumber (id : Z) (target : number) : bool :=
  strict_eq (BigIntToNumber id) target.

(** The test the filter of [fetchEvents] applies to a decoded identifier: it
    is truthy, and [Number] of it is the target. *)
Definition truthyAndSame (id : Z) (target : number) : bool :=
  truthy (VBigInt id) && sameAsNumber id target.

(** The record of a log that decodes and whose identifier matches the target
    under [same]; nothing for any other log. *)
Definition matchingEntry `{Env} (same : Z -> number -> bool) (target : number)
    (log : RawLog) : list GameEventData :=
  match decodeEventLog ZeroSumSimplifiedABI (data log) (topics log) with
  | inr decoded =>
      match decoded_args decoded with
      | Some a =>
          match args_gameId a with
          | Some id =>
              if same id target
              then [ {| type := decoded_eventName decoded;
                        gameId := Some id;
                        args := a;
                        blockNumber := raw_blockNumber log;
                        transactionHash := raw_transactionHash log |} ]
              else []
          | None => []
          end
      | None => []
      end
  | inl _ => []
  end.

(** The decoded set of matching entries, in the order of the logs. *)
Definition matchingEntries `{Env} (same : Z -> number -> bool) (target : number)
    (logs : list RawLog) : list GameEventData :=
  flat_map (matchingEntry same target) logs.

(** A log is for the game the hook watches: every log when no game is given,
    otherwise the logs whose identifier, converted by [Number], is the
    target. *)
Definition forGame (gameId : option number) (log : Log) : bool :=
  match gameId with
  | Some target => strict_eq (Number (args_gameId (log_args log))) target
  | None => true
  end.

(** Toasts are on unless the options switch them off. *)
Definition toastsOn (options : option Options) : bool :=
  match options with
  | Some o =>
      match opt_showToasts o with
      | Some b => b
      | None => true
      end
  | None => true
  end.

(** The listeners are live unless the options disable them. *)
Definition listenersOn (options : option Options) : bool :=
  match options with
  | Some o =>
      match opt_enabled o with
      | Some b => b
      | None => true
      end
  | None => true
  end.

(** The argument [fetchEvents] gives to [getLogs]. *)
Definition rangeQuery `{Env} (fromBlock : Z) : GetLogsParams :=
  {| gl_address := gameContractAddress; fromBlock := fromBlock; toBlock := latest |}.

(** A client whose range query returns the given logs. *)
Definition clientReturning `{Env} (logs : list RawLog) : PublicClient :=
  {| getLogs := fun _ => inr logs |}.

(** A toast text with named holes for fields of the event arguments. *)
Inductive Slot : Type :=
| Text (s : string)
| Hole (name : string).

(** The fixed template of each listened kind; [GameCreated] has none. *)
Definition toastTemplate (t : GameEventType) : option (ToastKind * list Slot) :=
  match t with
  | GameCreated => None
  | PlayerJoined => Some (success, [Text "🎮 Player joined the game!"])
  | MoveMade =>
      Some (success, [Text "🎯 Move made: "; Hole "subtraction"; Text " → "; Hole "newNumber"])
  | GameFinished => Some (success, [Text "🎉 Game finished!"])
  | NumberGenerated => Some (success, [Text "🎲 Game started! Number generated."])
  | TimeoutHandled => Some (warning, [Text "⏰ Timeout handled"])
  | GameCancelled => Some (info, [Text "❌ Game cancelled"])
  end.

(** The kinds whose toast the handler asks of a method [toast] lacks. *)
Definition toastFails (t : GameEventType) : bool :=
  match toastTemplate t with
  | Some (kind, _) => negb (toastHas kind)
  | None => false
  end.

Definition fill (a : Args) (slots : list Slot) : Template :=
  map
    (fun s =>
       match s with
       | Text s => Lit s
       | Hole name => Interp (field a name)
       end)
    slots.

(** The record [handleEvent] builds for a log. *)
Definition eventDataOf (eventName : GameEventType) (log : Log) : GameEventData :=
  {| type := tag eventName;
     gameId := args_gameId (log_args log);
     args := log_args log;
     blockNumber := log_blockNumber log;
     transactionHash := log_transactionHash log |}.

End GameEvents.

(** * Concrete surroundings, for running the model *)
Module Demo.
Import JS Eff.

(** Libraries whose provider and transport cannot be built for the URL
    [failOn] and can for every other, whose contracts want a string for an
    address, and whose connector wants a configuration. A provider or a
    transport is the URL it was built for. The object of reference 1 has no
    string conversion; every other object converts to ["[object Object]"]. *)
Definition libraries (failOn : string) : Adapter.Libraries :=
  {| Adapter.Error := string;
     Adapter.Provider := string;
     Adapter.ContractT := Value * string;
     Adapter.Abi := unit;
     Adapter.Chain := string;
     Adapter.Transport := string;
     Adapter.PublicClient := string * string;
     Adapter.WalletClient := Value;
     Adapter.JsonRpcProvider :=
       fun url => if String.eqb url failOn then inl "could not connect" else inr url;
     Adapter.Contract :=
       fun address _ provider =>
         match address with
         | VString _ => inr (address, provider)
         | _ => inl "invalid address"
         end;
     Adapter.base := "base";
     Adapter.baseSepolia := "baseSepolia";
     Adapter.chain_name :=
       fun chain => if String.eqb chain "base" then "Base" else "Base Sepolia";
     Adapter.http :=
       fun url => if String.eqb url failOn then inl "no transport" else inr url;
     Adapter.createPublicClient := fun chain transport => inr (chain, transport);
     Adapter.getConnectorClient :=
       fun config chainId =>
         if truthy config then inr chainId else inl "connector not found";
     Adapter.objectToString :=
       fun ref =>
         match ref with
         | xH => inl "TypeError: Cannot convert object to primitive value"
         | _ => inr "[object Object]"
         end |}.

(** A decoder that reads the event off the [data] string of a log: four
    known payloads, everything else fails to decode. *)
Definition decode (data : string) (topics : list string)
    : string + GameEvents.Decoded :=
  if String.eqb data "created#1" then
    inr {| GameEvents.decoded_eventName := "GameCreated";
           GameEvents.decoded_args :=
             Some {| GameEvents.args_gameId := Some 1;
                     GameEvents.args_fields := [("creator", VString "0xA11CE")] |} |}
  else if String.eqb data "joined#0" then
    inr {| GameEvents.decoded_eventName := "PlayerJoined";
           GameEvents.decoded_args :=
             Some {| GameEvents.args_gameId := Some 0;
                     GameEvents.args_fields := [("player", VString "0xB0B")] |} |}
  else if String.eqb data "move#7" then
    inr {| GameEvents.decoded_eventName := "MoveMade";
           GameEvents.decoded_args :=
             Some {| GameEvents.args_gameId := Some 7;
                     GameEvents.args_fields :=
                       [("subtraction", VBigInt 3); ("newNumber", VBigInt 12)] |} |}
  else if String.eqb data "move#2^53+1" then
    inr {| GameEvents.decoded_eventName := "MoveMade";
           GameEvents.decoded_args :=
             Some {| GameEvents.args_gameId := Some (2 ^ 53 + 1);
                     GameEvents.args_fields :=
                       [("subtraction", VBigInt 1); ("newNumber", VBigInt 5)] |} |}
  else inl "AbiEventSignatureNotFoundError".

Definition env : GameEvents.Env :=
  {| GameEvents.Error := string;
     GameEvents.Address := string;
     GameEvents.Abi := unit;
     GameEvents.gameContractAddress := "0xZER0";
     GameEvents.ZeroSumSimplifiedABI := tt;
     GameEvents.decodeEventLog := fun _ => decode;
     GameEvents.TypeError := "TypeError" |}.

Definition rawLog (data : string) (block : Z) : GameEvents.RawLog :=
  {| GameEvents.data := data;
     GameEvents.topics := [];
     GameEvents.raw_blockNumber := block;
     GameEvents.raw_transactionHash := "0xhash" |}.

(** A client whose range query returns the given logs. *)
Definition clientWith (logs : list GameEvents.RawLog) : @GameEvents.PublicClient env :=
  {| GameEvents.getLogs := fun _ => inr logs |}.

(** A range of four logs: a move of game 7, a log that does not decode, the
    creation of game 1, a join of game 0. *)
Definition range : list GameEvents.RawLog :=
  [rawLog "move#7" 10; rawLog "0xjunk" 11; rawLog "created#1" 12; rawLog "joined#0" 13].

(** A client whose range query rejects. *)
Definition failingClient : @GameEvents.PublicClient env :=
  {| GameEvents.getLogs := fun _ => inl ("rpc unreachable" : @GameEvents.Error env) |}.

(** A live log of game [id]. *)
Definition liveLog (id : Z) : GameEvents.Log :=
  {| GameEvents.log_args :=
       {| GameEvents.args_gameId := Some id;
          GameEvents.args_fields :=
            [("subtraction", VBigInt 3); ("newNumber", VBigInt 12)] |};
     GameEvents.log_blockNumber := 100;
     GameEvents.log_transactionHash := "0xfeed" |}.

(** A caller's callback that prints the record it is given. *)
Definition printEvent : @GameEvents.EventCallback env :=
  fun event => emit (GameEvents.ConsoleLog [Lit "got"] (Some event)).

(** A caller's refresh callback that leaves one line on the console. *)
Definition refresh : @GameEvents.Run env unit :=
  emit (GameEvents.ConsoleLog [Lit "refresh"] None).

(** The [MoveMade] listener of [useGameEvents(7, printEvent)]. *)
Definition moveWatcher : @GameEvents.Watch env :=
  {| GameEvents.address := @GameEvents.gameContractAddress env;
     GameEvents.abi := @GameEvents.ZeroSumSimplifiedABI env;
     GameEvents.eventName := GameEvents.MoveMade;
     GameEvents.onLogs :=
       fun logs =>
         GameEvents.handleEvent (Some (NInt 7)) (Some printEvent) true
           GameEvents.MoveMade logs;
     GameEvents.enabled := true |}.

(** The [GameFinished] listener of [useGameEventRefresh(7, refresh)]. *)
Definition finishedWatcher : @GameEvents.Watch env :=
  {| GameEvents.address := @GameEvents.gameContractAddress env;
     GameEvents.abi := @GameEvents.ZeroSumSimplifiedABI env;
     GameEvents.eventName := GameEvents.GameFinished;
     GameEvents.onLogs :=
       fun logs =>
         GameEvents.handleEvent (Some (NInt 7))
           (Some (GameEvents.refreshCallback (NInt 7) refresh)) true
           GameEvents.GameFinished logs;
     GameEvents.enabled := true |}.

End Demo.

(** * Observations on runs, and more concrete surroundings *)
Module Observations.
Import JS Eff GameEvents.

(** The number of [console.error] lines of an adapter run. *)
Definition errorLines {Error : Type} (t : list (Adapter.Action Error)) : nat :=
  List.length
    (filter
       (fun a =>
          match a with
          | Adapter.ConsoleError _ _ => true
          | _ => false
          end)
       t).

(** What viem does when asked for a client of [chain] over the transport of
    [url]: the transport is built first, then the client on it. *)
Definition buildClient `{Adapter.Libraries} (chain : Adapter.Chain) (url : string)
    : Adapter.Error + Adapter.PublicClient :=
  match Adapter.http url with
  | inl e => inl e
  | inr transport => Adapter.createPublicClient chain transport
  end.

Definition isToast {Error : Type} (a : GameEvents.Action Error) : bool :=
  match a with
  | GameEvents.Toast _ _ => true
  | _ => false
  end.

(** The toasts of a run of the hooks, and the run without them. *)
Definition toastsOf {Error : Type} (t : list (GameEvents.Action Error))
    : list (GameEvents.Action Error) :=
  filter isToast t.

Definition withoutToasts {Error : Type} (t : list (GameEvents.Action Error))
    : list (GameEvents.Action Error) :=
  filter (fun a => negb (isToast a)) t.

(** The toast a handler of kind [eventName] shows for a log, if any. *)
Definition toastFor {Error : Type} (showToasts : bool)
    (eventName : GameEvents.GameEventType) (log : GameEvents.Log)
    : list (GameEvents.Action Error) :=
  if showToasts
  then
    match GameEvents.toastTemplate eventName with
    | Some (kind, slots) =>
        [GameEvents.Toast kind (GameEvents.fill (GameEvents.log_args log) slots)]
    | None => []
    end
  else [].

(** A number no bigint converts to: [NaN] and the doubles that are not
    integers. *)
Definition neverAnIdentifier (target : number) : bool :=
  match target with
  | NaN | NFrac _ => true
  | _ => false
  end.

(** A raw log decodes, but to an event that carries no game identifier:
    without arguments at all, or with arguments that have no [gameId]. *)
Definition decodesWithoutGame `{GameEvents.Env} (log : GameEvents.RawLog) : bool :=
  match GameEvents.decodeEventLog GameEvents.ZeroSumSimplifiedABI
          (GameEvents.data log) (GameEvents.topics log) with
  | inr decoded =>
      match GameEvents.decoded_args decoded with
      | Some a =>
          match GameEvents.args_gameId a with
          | Some _ => false
          | None => true
          end
      | None => true
      end
  | inl _ => false
  end.

(** A decoder that, besides the moves of game 7, knows two events without a
    game: one without arguments and one whose arguments have no [gameId]. *)
Definition decodeMore (data : string) (topics : list string)
    : string + GameEvents.Decoded :=
  if String.eqb data "paused" then
    inr {| GameEvents.decoded_eventName := "Paused";
           GameEvents.decoded_args := None |}
  else if String.eqb data "fee#30" then
    inr {| GameEvents.decoded_eventName := "FeeChanged";
           GameEvents.decoded_args :=
             Some {| GameEvents.args_gameId := None;
                     GameEvents.args_fields := [("fee", VBigInt 30)] |} |}
  else Demo.decode data topics.

Definition envMore : GameEvents.Env :=
  {| GameEvents.Error := string;
     GameEvents.Address := string;
     GameEvents.Abi := unit;
     GameEvents.gameContractAddress := "0xZER0";
     GameEvents.ZeroSumSimplifiedABI := tt;
     GameEvents.decodeEventLog := fun _ => decodeMore;
     GameEvents.TypeError := "TypeError" |}.

(** A caller's callback that throws. *)
Definition failingCallback : @GameEvents.EventCallback Demo.env :=
  fun _ => throw "callback failed".

(** What makes a record an entry of the fetch for [target] over [logs]: it
    is the decoding of one of the logs, with the block number and the hash of
    that log, and its identifier is not zero and converts to the target. *)
Definition entryOf `{Env} (target : number) (logs : list RawLog)
    (event : GameEventData) : Prop :=
  exists log id,
    In log logs
    /\ decodeEventLog ZeroSumSimplifiedABI (data log) (topics log)
       = inr {| decoded_eventName := type event; decoded_args := Some (args event) |}
    /\ blockNumber event = raw_blockNumber log
    /\ transactionHash event = raw_transactionHash log
    /\ gameId event = Some id
    /\ args_gameId (args event) = Some id
    /\ id <> 0
    /\ strict_eq (BigIntToNumber id) target = true.

End Observations.

(** * Facts about [Number] on bigints *)
Module NumberFacts.
Import JS.

Lemma max_double_large : 2 ^ 53 <= max_double.
Proof. vm_compute. discriminate. Qed.

Lemma round53_small (m : Z) : 0 <= m -> m < 2 ^ 53 -> round53 m = m.
Proof.
  intros Hm Hlt. unfold round53.
  assert (Hk : Z.log2 m - 52 <= 0).
  { destruct (Z.eq_dec m 0) as [-> | Hne]; [vm_compute; discriminate|].
    assert (Z.log2 m < 53) by (apply Z.log2_lt_pow2; lia). lia. }
  apply Z.leb_le in Hk. cbv zeta. rewrite Hk. reflexivity.
Qed.

(** Below [2^53] in magnitude the conversion is exact. *)
Lemma BigIntToNumber_safe (z : Z) : Z.abs z < 2 ^ 53 -> BigIntToNumber z = NInt z.
Proof.
  intros H. unfold BigIntToNumber. cbv zeta.
  rewrite round53_small by lia.
  pose proof max_double_large as Hmax.
  assert (Hlt : (max_double <? Z.abs z) = false) by (apply Z.ltb_ge; lia).
  rewrite Hlt. f_equal. lia.
Qed.

Lemma round53_pos (m : Z) : 0 < m -> 0 < round53 m.
Proof.
  intros Hm. unfold round53. cbv zeta.
  destruct (Z.log2 m - 52 <=? 0) eqn:Hk; [exact Hm|].
  apply Z.leb_gt in Hk.
  set (k := Z.log2 m - 52) in *.
  assert (Hq : 0 < Z.shiftr m k).
  { rewrite Z.shiftr_div_pow2 by lia.
    apply Z.div_str_pos. split; [apply Z.pow_pos_nonneg; lia|].
    transitivity (2 ^ Z.log2 m).
    - apply Z.pow_le_mono_r; lia.
    - apply Z.log2_spec; lia. }
  rewrite Z.shiftl_mul_pow2 by lia.
  apply Z.mul_pos_pos; [|apply Z.pow_pos_nonneg; lia].
  destruct (_ || _); lia.
Qed.

(** Only the bigint [0n] converts to the number zero. *)
Lemma BigIntToNumber_zero (z : Z) : BigIntToNumber z = NInt 0 -> z = 0.
Proof.
  unfold BigIntToNumber. cbv zeta. intros H.
  destruct (Z.eq_dec z 0) as [|Hne]; [assumption|exfalso].
  assert (Hr : 0 < round53 (Z.abs z)) by (apply round53_pos; lia).
  destruct (max_double <? round53 (Z.abs z)).
  - destruct (0 <? z); discriminate.
  - injection H as H. nia.
Qed.

Lemma strict_eq_sym (a b : number) : strict_eq a b = strict_eq b a.
Proof.
  destruct a, b; simpl; try reflexivity.
  - apply Z.eqb_sym.
  - apply Pos.eqb_sym.
Qed.

(** Ties go to the even significand: [2^53 + 1] becomes [2^53] and
    [2^53 + 3] becomes [2^53 + 4]; past the largest double the result is
    infinite. *)
Example BigIntToNumber_rounds :
  BigIntToNumber (2 ^ 53 + 1) = NInt (2 ^ 53)
  /\ BigIntToNumber (2 ^ 53 + 2) = NInt (2 ^ 53 + 2)
  /\ BigIntToNumber (2 ^ 53 + 3) = NInt (2 ^ 53 + 4)
  /\ BigIntToNumber (- (2 ^ 54 + 3)) = NInt (- (2 ^ 54 + 4))
  /\ BigIntToNumber max_double = NInt max_double
  /\ BigIntToNumber (2 ^ 1024 - 2 ^ 970) = PosInf
  /\ BigIntToNumber (2 ^ 1024 - 2 ^ 970 - 1) = NInt max_double.
Proof. vm_compute. repeat split. Qed.

End NumberFacts.

(** * Laws of the effect type *)
Module EffFacts.
Import Eff.
Local Open Scope eff_scope.

Section Laws.
Context {Act Err : Type}.

Lemma bind_ret_l {A B : Type} (x : A) (f : A -> M Act Err B) :
  bind (ret x) f = f x.
Proof. unfold bind, ret. destruct (f x). reflexivity. Qed.

Lemma bind_ret_r {A : Type} (m : M Act Err A) : bind m ret = m.
Proof.
  destruct m as [t [e|a]]; [reflexivity|].
  unfold bind, ret. rewrite app_nil_r. reflexivity.
Qed.

Lemma bind_assoc {A B C : Type} (m : M Act Err A)
    (f : A -> M Act Err B) (g : B -> M Act Err C) :
  bind (bind m f) g = bind m (fun x => bind (f x) g).
Proof.
  destruct m as [t [e|a]]; [reflexivity|].
  unfold bind. destruct (f a) as [t1 [e1|b]]; [reflexivity|].
  destruct (g b) as [t2 r2]. rewrite app_assoc. reflexivity.
Qed.

Lemma bind_ext {A B : Type} (m : M Act Err A) (f g : A -> M Act Err B) :
  (forall x, f x = g x) -> bind m f = bind m g.
Proof.
  intros E. destruct m as [t [e|a]]; [reflexivity|].
  unfold bind. rewrite E. reflexivity.
Qed.


Lemma forEach_app {A : Type} (f : A -> M Act Err unit) (l1 l2 : list A) :
  forEach f (l1 ++ l2) = bind (forEach f l1) (fun _ => forEach f l2).
Proof.
  induction l1 as [|x l1 IH]; cbn [forEach app].
  - rewrite bind_ret_l. reflexivity.
  - rewrite bind_assoc. apply bind_ext. intros _. exact IH.
Qed.

Lemma forEach_one {A : Type} (f : A -> M Act Err unit) (x : A) :
  forEach f [x] = f x.
Proof.
  cbn [forEach]. destruct (f x) as [t [e|[]]]; [reflexivity|].
  unfold bind, ret. rewrite app_nil_r. reflexivity.
Qed.


(** An element on which the callback does nothing can be dropped from the
    list. *)
Lemma forEach_skip {A : Type} (f : A -> M Act Err unit) (pre post : list A) (x : A) :
  f x = ret tt -> forEach f (pre ++ x :: post) = forEach f (pre ++ post).
Proof.
  intros E. rewrite !forEach_app. apply bind_ext. intros _.
  cbn [forEach]. rewrite E, bind_ret_l. reflexivity.
Qed.

End Laws.
End EffFacts.

(** * The adapter: URL selection and error handling *)
Module AdapterFacts.
Import JS Eff Adapter EffFacts.
Local Open Scope eff_scope.

(** Closes a goal about a table keyed on the number 8453 for an integer
    known to differ from it. *)
Ltac other_than_8453 z :=
  destruct z as [|p|p]; try reflexivity;
  do 14 (destruct p as [p|p|]; try reflexivity);
  congruence.

Section WithLibraries.
Context `{Libraries}.

Lemma expectedRpcUrl_other (chainId : Value) :
  chainId = VNumber (NInt 8453) \/ expectedRpcUrl chainId = sepoliaUrl.
Proof.
  destruct chainId as [| |b|n|z|s|r]; try (right; reflexivity).
  destruct n as [z| | | |]; try (right; reflexivity).
  destruct (Z.eq_dec z 8453) as [-> | Hne]; [left; reflexivity | right].
  unfold expectedRpcUrl. other_than_8453 z.
Qed.

Lemma expectedChain_other (chainId : Value) :
  chainId = VNumber (NInt 8453) \/ expectedChain chainId = baseSepolia.
Proof.
  destruct chainId as [| |b|n|z|s|r]; try (right; reflexivity).
  destruct n as [z| | | |]; try (right; reflexivity).
  destruct (Z.eq_dec z 8453) as [-> | Hne]; [left; reflexivity | right].
  unfold expectedChain. other_than_8453 z.
Qed.

(** The test [(chainId || 84532) === 8453] holds for the number 8453 only. *)
Lemma target_test (chainId : Value) :
  chainId = VNumber (NInt 8453)
  \/ strict_eq_number (if truthy chainId then chainId else VNumber (NInt 84532))
       (NInt 8453) = false.
Proof.
  destruct chainId as [| |b|n|z|s|r]; try (right; reflexivity).
  - right. destruct b; reflexivity.
  - destruct n as [z| | | |]; try (right; reflexivity).
    destruct (Z.eq_dec z 8453) as [-> | Hne]; [left; reflexivity | right].
    simpl truthy. destruct (Z.eqb_spec z 0) as [-> | Hz]; [reflexivity|].
    simpl. apply Z.eqb_neq. exact Hne.
  - right. simpl. destruct (negb (z =? 0)); reflexivity.
  - right. simpl. destruct (negb (s =? "")%string); reflexivity.
Qed.

(** The two lines of the adapter that pick the URL agree with the
    specification's table on every value. *)
Lemma url_choice (chainId : Value) :
  (if strict_eq_number (if truthy chainId then chainId else VNumber (NInt 84532)) (NInt 8453)
   then "https://mainnet.base.org" else "https://sepolia.base.org")
  = expectedRpcUrl chainId.
Proof.
  destruct (target_test chainId) as [-> | Htest]; [reflexivity|].
  rewrite Htest.
  destruct (expectedRpcUrl_other chainId) as [-> | ->]; [discriminate Htest | reflexivity].
Qed.

Lemma chain_choice (chainId : Value) :
  (if strict_eq_number (if truthy chainId then chainId else VNumber (NInt 84532)) (NInt 8453)
   then base else baseSepolia)
  = expectedChain chainId.
Proof.
  destruct (target_test chainId) as [-> | Htest]; [reflexivity|].
  rewrite Htest.
  destruct (expectedChain_other chainId) as [-> | ->]; [discriminate Htest | reflexivity].
Qed.

(** Only an object can fail to convert. *)
Lemma interpolate_primitive (v : Value) :
  match v with
  | VObject _ => True
  | _ => interpolate v = inr (Interp v)
  end.
Proof. destruct v; reflexivity || exact I. Qed.

(** A line with one interpolation at its end. *)
Lemma consoleLog_one (text : string) (v : Value) :
  consoleLog [Lit text; Interp v] =
  match interpolate v with
  | inl e => throw e
  | inr piece => emit (ConsoleLog [Lit text; piece])
  end.
Proof.
  unfold consoleLog. cbn [template]. destruct (interpolate v); reflexivity.
Qed.

(** A line that interpolates a string never throws. *)
Lemma consoleLog_string (text s : string) :
  consoleLog [Lit text; Interp (VString s)]
  = emit (ConsoleLog [Lit text; Interp (VString s)]).
Proof. reflexivity. Qed.

(** The whole run of [getProvider]. *)
Lemma getProvider_run (chainId : Value) :
  getProvider chainId =
  match interpolate (targetChainIdOf chainId) with
  | inl e => throw e
  | inr piece =>
      let pre := [ConsoleLog [Lit "🔗 Creating ethers provider for chain "; piece];
                  ConsoleLog [Lit "🔗 RPC URL: "; Interp (VString (expectedRpcUrl chainId))]] in
      match JsonRpcProvider (expectedRpcUrl chainId) with
      | inl e => (pre ++ [ConsoleError "❌ Failed to create ethers provider:" e], inl e)
      | inr p => (pre ++ [ConsoleLog [Lit "✅ Ethers provider created successfully"]], inr p)
      end
  end.
Proof.
  unfold getProvider, targetChainIdOf. cbv zeta.
  rewrite url_choice, consoleLog_one, consoleLog_string.
  destruct (interpolate _); [reflexivity|].
  destruct (JsonRpcProvider (expectedRpcUrl chainId)); reflexivity.
Qed.

(** The whole run of [getViemClient]. *)
Lemma getViemClient_run (wagmiConfig chainId : Value) :
  getViemClient wagmiConfig chainId =
  let called := ConsoleLogCall "🔧 getViemClient called with:" chainId (truthy wagmiConfig) in
  match interpolate (targetChainIdOf chainId) with
  | inl e => ([called], inl e)
  | inr piece =>
      let pre := [called;
                  ConsoleLog [Lit "🔗 Creating viem client for chain "; piece; Lit " (";
                              Interp (VString (chain_name (expectedChain chainId))); Lit ")"];
                  ConsoleLog [Lit "🔗 RPC URL: "; Interp (VString (expectedRpcUrl chainId))]] in
      match clientConstruction chainId with
      | inl e => (pre ++ [ConsoleError "❌ Failed to create viem client:" e], inl e)
      | inr c => (pre ++ [ConsoleLog [Lit "✅ Viem client created successfully"]], inr c)
      end
  end.
Proof.
  unfold getViemClient, clientConstruction, targetChainIdOf. cbv zeta.
  rewrite url_choice, chain_choice, consoleLog_string.
  unfold consoleLog. cbn [template].
  destruct (interpolate _); [reflexivity|].
  destruct (http (expectedRpcUrl chainId)) as [e|t]; [reflexivity|].
  cbn. destruct (createPublicClient (expectedChain chainId) t); reflexivity.
Qed.

(** The run of [getContract] after its provider. *)
Lemma getContract_run (address : Value) (abi : Abi) (chainId : Value) :
  getContract address abi chainId =
  match getProvider chainId with
  | (t, inl e) => (t, inl e)
  | (t, inr p) =>
      match interpolate address with
      | inl e => (t, inl e)
      | inr piece =>
          let pre := t ++ [ConsoleLog [Lit "📄 Creating contract at "; piece]] in
          match Contract address abi p with
          | inl e => (pre ++ [ConsoleError "❌ Failed to create contract:" e], inl e)
          | inr c => (pre ++ [ConsoleLog [Lit "✅ Contract created successfully"]], inr c)
          end
      end
  end.
Proof.
  unfold getContract. destruct (getProvider chainId) as [t [e|p]]; [reflexivity|].
  rewrite consoleLog_one.
  destruct (interpolate address); cbn; [rewrite app_nil_r; reflexivity|].
  destruct (Contract address abi p); cbn; rewrite <- app_assoc; reflexivity.
Qed.

(** C2. The selection of the RPC URL is total: on every chain identifier the
    two lines of [getProvider] and of [getViemClient] that pick the URL give
    the URL of the specification's table, the mainnet URL for the number 8453
    and the testnet URL for every other value, an absent identifier included.
    The selected URL is the one used: unless the line that prints the chain
    throws while converting the identifier to a string (an object without a
    string conversion; then nothing is built), [getProvider] builds its
    provider for that URL, [getViemClient] its client, and both print it. *)
Theorem rpc_url_selection_total (wagmiConfig chainId : Value) :
  (if strict_eq_number (if truthy chainId then chainId else VNumber (NInt 84532)) (NInt 8453)
   then "https://mainnet.base.org" else "https://sepolia.base.org")
  = expectedRpcUrl chainId
  /\ expectedRpcUrl (VNumber (NInt 8453)) = "https://mainnet.base.org"
  /\ expectedRpcUrl VUndefined = "https://sepolia.base.org"
  /\ (chainId = VNumber (NInt 8453)
      \/ expectedRpcUrl chainId = "https://sepolia.base.org")
  /\ match interpolate (targetChainIdOf chainId) with
     | inl e =>
         getProvider chainId = throw e
         /\ getViemClient wagmiConfig chainId
            = ([ConsoleLogCall "🔧 getViemClient called with:" chainId (truthy wagmiConfig)],
               inl e)
     | inr _ =>
         outcome (getProvider chainId) = JsonRpcProvider (expectedRpcUrl chainId)
         /\ outcome (getViemClient wagmiConfig chainId) = clientConstruction chainId
         /\ In (ConsoleLog [Lit "🔗 RPC URL: "; Interp (VString (expectedRpcUrl chainId))])
              (trace (getProvider chainId))
         /\ In (ConsoleLog [Lit "🔗 RPC URL: "; Interp (VString (expectedRpcUrl chainId))])
              (trace (getViemClient wagmiConfig chainId))
     end.
Proof.
  split; [apply url_choice|]. split; [reflexivity|]. split; [reflexivity|].
  split; [apply expectedRpcUrl_other|].
  rewrite getProvider_run, getViemClient_run. cbv zeta.
  destruct (interpolate _) as [e|piece]; [split; reflexivity|].
  repeat split.
  - destruct (JsonRpcProvider _); reflexivity.
  - destruct (clientConstruction _); reflexivity.
  - destruct (JsonRpcProvider _); simpl; auto.
  - destruct (clientConstruction _); simpl; auto.
Qed.

(** C8. Each function ends as the underlying construction does: it returns
    the constructed value when the construction succeeds and throws the very
    value the construction threw when it fails, and in that case the last
    thing it did was to print that value with [console.error]. This is so of
    [getViemWalletClient] always, and of [getProvider], [getContract] and
    [getViemClient] in every run that reaches the construction. The runs that
    do not are those in which a line printed before the [try] throws while
    converting the chain identifier, or the address, to a string: then
    nothing is built and what the conversion threw is thrown as it is. *)
Theorem construction_errors_logged_and_rethrown
    (address : Value) (abi : Abi) (wagmiConfig chainId : Value) :
  (outcome (getViemWalletClient wagmiConfig chainId) = getConnectorClient wagmiConfig chainId
   /\ errorLogged (getViemWalletClient wagmiConfig chainId))
  /\ match interpolate (targetChainIdOf chainId) with
     | inl e =>
         getProvider chainId = throw e
         /\ getContract address abi chainId = throw e
         /\ outcome (getViemClient wagmiConfig chainId) = inl e
     | inr _ =>
         (outcome (getProvider chainId) = JsonRpcProvider (expectedRpcUrl chainId)
          /\ errorLogged (getProvider chainId))
         /\ (outcome (getViemClient wagmiConfig chainId) = clientConstruction chainId
             /\ errorLogged (getViemClient wagmiConfig chainId))
         /\ match JsonRpcProvider (expectedRpcUrl chainId) with
            | inl e =>
                outcome (getContract address abi chainId) = inl e
                /\ errorLogged (getContract address abi chainId)
            | inr provider =>
                match interpolate address with
                | inl e =>
                    getContract address abi chainId = (trace (getProvider chainId), inl e)
                | inr _ =>
                    outcome (getContract address abi chainId)
                    = Contract address abi provider
                    /\ errorLogged (getContract address abi chainId)
                end
            end
     end.
Proof.
  split.
  - unfold errorLogged, getViemWalletClient, outcome, trace.
    destruct (getConnectorClient _ _) as [e|w]; cbn; split; try reflexivity; try exact I.
    exists [ConsoleLog [Lit "🔧 Getting viem wallet client for write operations..."]].
    eexists. reflexivity.
  - unfold errorLogged. rewrite getContract_run, getProvider_run, getViemClient_run.
    unfold outcome, trace. cbv zeta.
    destruct (interpolate (targetChainIdOf chainId)) as [e|piece]; [repeat split|].
    split; [|split].
    + destruct (JsonRpcProvider _); cbn [fst snd]; split; eauto.
    + destruct (clientConstruction _); cbn [fst snd]; split; eauto.
    + destruct (JsonRpcProvider _) as [e|p]; [cbn [fst snd]; split; eauto|].
      destruct (interpolate address) as [e|piece']; [reflexivity|].
      destruct (Contract address abi p); cbn [fst snd]; split; eauto.
Qed.

End WithLibraries.

(** Runs on concrete libraries: the mainnet provider, the default provider, a
    provider whose construction fails, and a chain identifier that is an
    object without a string conversion. *)
Example getProvider_runs :
  @getProvider (Demo.libraries "bad") (VNumber (NInt 8453))
  = ([ConsoleLog [Lit "🔗 Creating ethers provider for chain "; Interp (VNumber (NInt 8453))];
      ConsoleLog [Lit "🔗 RPC URL: "; Interp (VString "https://mainnet.base.org")];
      ConsoleLog [Lit "✅ Ethers provider created successfully"]],
     inr "https://mainnet.base.org")
  /\ outcome (@getProvider (Demo.libraries "bad") VUndefined)
     = inr "https://sepolia.base.org"
  /\ outcome (@getProvider (Demo.libraries "bad") (VString "8453"))
     = inr "https://sepolia.base.org"
  /\ @getProvider (Demo.libraries "https://sepolia.base.org") (VNumber (NInt 0))
     = ([ConsoleLog [Lit "🔗 Creating ethers provider for chain "; Interp (VNumber (NInt 84532))];
         ConsoleLog [Lit "🔗 RPC URL: "; Interp (VString "https://sepolia.base.org")];
         ConsoleError "❌ Failed to create ethers provider:" "could not connect"],
        inl "could not connect")
  /\ @getProvider (Demo.libraries "bad") (VObject 1)
     = ([], inl "TypeError: Cannot convert object to primitive value")
  /\ @getContract (Demo.libraries "bad") (VObject 1) tt VUndefined
     = ([ConsoleLog [Lit "🔗 Creating ethers provider for chain "; Interp (VNumber (NInt 84532))];
         ConsoleLog [Lit "🔗 RPC URL: "; Interp (VString "https://sepolia.base.org")];
         ConsoleLog [Lit "✅ Ethers provider created successfully"]],
        inl "TypeError: Cannot convert object to primitive value").
Proof. repeat split. Qed.

End AdapterFacts.

(** * The subscription hook *)
Module SubscriptionFacts.
Import JS Eff GameEvents EffFacts NumberFacts.
Local Open Scope eff_scope.

(** For identifiers below [2^53] in magnitude, equality after [Number] is
    equality of the integers. *)
Lemma safe_id_conversion (id : Z) (target : number) :
  Z.abs id < 2 ^ 53 -> sameAsNumber id target = sameId id target.
Proof.
  intros Hsafe. unfold sameAsNumber, sameId.
  rewrite BigIntToNumber_safe by assumption.
  destruct target; reflexivity.
Qed.

Section WithEnv.
Context `{Env}.

(** The hook is six copies of one listener record, one per listened tag. *)
Lemma useGameEvents_watchers (gameId : option number) (onEvent : option EventCallback)
    (options : option Options) :
  useGameEvents gameId onEvent options =
  map (fun t =>
         {| address := gameContractAddress; abi := ZeroSumSimplifiedABI;
            eventName := t;
            onLogs := handleEvent gameId onEvent (toastsOn options) t;
            enabled := listenersOn options |})
      listenedTags.
Proof.
  unfold useGameEvents, toastsOn, listenersOn.
  destruct options as [[[st|] [en|]]|]; reflexivity.
Qed.

(** The guard of [handleEvent] lets a log of the watched game through. *)
Lemma guard_open (gameId : option number) (log : Log) :
  forGame gameId log = true ->
  match gameId with
  | Some g => negb (strict_eq (Number (args_gameId (log_args log))) g)
  | None => false
  end = false.
Proof.
  destruct gameId as [g|]; [|reflexivity].
  simpl. intros ->. reflexivity.
Qed.


(** One log of the watched game, handled with toasts on, for a kind whose
    toast method exists. *)
Lemma handleEvent_toast (gameId : option number) (onEvent : option EventCallback)
    (eventName : GameEventType) (log : Log) (kind : ToastKind) (slots : list Slot) :
  toastTemplate eventName = Some (kind, slots) ->
  toastHas kind = true ->
  forGame gameId log = true ->
  handleEvent gameId onEvent true eventName [log] =
  (emit (Toast kind (fill (log_args log) slots)) ;;
   handleEvent gameId onEvent false eventName [log]).
Proof.
  intros Htpl Hhas Hfor. unfold handleEvent. rewrite !forEach_one. cbv zeta.
  rewrite (guard_open _ _ Hfor), bind_ret_l.
  destruct eventName; simpl in Htpl; inversion Htpl; subst;
    reflexivity || discriminate Hhas.
Qed.

(** One log of the watched game, handled with toasts on, for a kind whose
    toast method is missing: the call throws before the callback and the
    event line. *)
Lemma handleEvent_missing_toast (gameId : option number) (onEvent : option EventCallback)
    (eventName : GameEventType) (log : Log) :
  toastFails eventName = true ->
  forGame gameId log = true ->
  handleEvent gameId onEvent true eventName [log] = throw TypeError.
Proof.
  intros Hfails Hfor. unfold handleEvent. rewrite forEach_one. cbv zeta.
  rewrite (guard_open _ _ Hfor).
  destruct eventName; try discriminate Hfails; reflexivity.
Qed.

(** A batch is handled log by log. *)
Lemma handleEvent_cons (gameId : option number) (onEvent : option EventCallback)
    (showToasts : bool) (eventName : GameEventType) (log : Log) (rest : list Log) :
  handleEvent gameId onEvent showToasts eventName (log :: rest)
  = (handleEvent gameId onEvent showToasts eventName [log] ;;
     handleEvent gameId onEvent showToasts eventName rest).
Proof. unfold handleEvent. rewrite forEach_one. reflexivity. Qed.

Lemma handleEvent_other (gameId : option number) (onEvent : option EventCallback)
    (showToasts : bool) (eventName : GameEventType) (log : Log) :
  forGame gameId log = false ->
  handleEvent gameId onEvent showToasts eventName [log] = ret tt.
Proof.
  intros Hfor. unfold handleEvent. rewrite forEach_one. cbv zeta.
  destruct gameId as [g|]; [|discriminate Hfor].
  simpl in Hfor. rewrite Hfor. reflexivity.
Qed.

(** A batch is handled as the batch of its logs of the watched game. *)
Lemma handleEvent_filter (gameId : option number) (onEvent : option EventCallback)
    (showToasts : bool) (eventName : GameEventType) (logs : list Log) :
  handleEvent gameId onEvent showToasts eventName logs
  = handleEvent gameId onEvent showToasts eventName (filter (forGame gameId) logs).
Proof.
  induction logs as [|log logs IH]; [reflexivity|].
  cbn [filter]. rewrite handleEvent_cons.
  destruct (forGame gameId log) eqn:Hfor.
  - rewrite (handleEvent_cons _ _ _ _ log (filter _ _)).
    apply bind_ext. intros _. exact IH.
  - rewrite (handleEvent_other _ _ _ _ _ Hfor), bind_ret_l. exact IH.
Qed.

(** A batch handled with toasts on by a handler whose toast method is
    missing: nothing happens until the first log of the watched game, where
    the handler throws. *)
Lemma handleEvent_missing_toast_batch (gameId : option number)
    (onEvent : option EventCallback) (eventName : GameEventType) (logs : list Log) :
  toastFails eventName = true ->
  handleEvent gameId onEvent true eventName logs
  = match filter (forGame gameId) logs with
    | [] => ret tt
    | _ :: _ => throw TypeError
    end.
Proof.
  intros Hfails. rewrite handleEvent_filter.
  destruct (filter (forGame gameId) logs) as [|log kept] eqn:Hkept; [reflexivity|].
  assert (Hfor : forGame gameId log = true).
  { assert (Hin : In log (filter (forGame gameId) logs)) by (rewrite Hkept; left; reflexivity).
    apply filter_In in Hin. exact (proj2 Hin). }
  rewrite handleEvent_cons, (handleEvent_missing_toast _ _ _ _ Hfails Hfor). reflexivity.
Qed.

Lemma listened_tag_has_template (t : GameEventType) :
  In t listenedTags -> exists kind slots, toastTemplate t = Some (kind, slots).
Proof.
  simpl. intros Ht. repeat destruct Ht as [<- | Ht]; simpl; eauto. contradiction.
Qed.


Lemma printedEvents_app (t1 t2 : list (Action Error)) :
  printedEvents (t1 ++ t2) = printedEvents t1 ++ printedEvents t2.
Proof. apply flat_map_app. Qed.



(** A log that carries the target itself as its identifier is a log of the
    watched game. *)
Lemma log_of_the_target_is_for_game (id : Z) (log : Log) :
  args_gameId (log_args log) = Some id ->
  BigIntToNumber id = NInt id ->
  forGame (Some (NInt id)) log = true.
Proof.
  intros Hid Hdouble. unfold forGame. rewrite Hid. cbn [Number].
  rewrite Hdouble. apply Z.eqb_refl.
Qed.

(** C3, as amended. When a target game is given and the identifier of a log,
    converted by [Number], is not strictly equal to the target (for an
    identifier below [2^53] in magnitude: whenever it differs from the
    target; also when the log carries no identifier), [handleEvent] does
    nothing for that log: no toast, no callback, no console line. Handling
    the log alone is the empty run, and a batch is handled as if the log were
    not in it. *)
Theorem other_game_logs_are_skipped
    (target : number) (onEvent : option EventCallback) (showToasts : bool)
    (eventName : GameEventType) (pre post : list Log) (log : Log) :
  strict_eq (Number (args_gameId (log_args log))) target = false ->
  handleEvent (Some target) onEvent showToasts eventName [log] = ret tt
  /\ handleEvent (Some target) onEvent showToasts eventName (pre ++ log :: post)
     = handleEvent (Some target) onEvent showToasts eventName (pre ++ post).
Proof.
  intros Hne. unfold handleEvent. split.
  - rewrite forEach_one. cbv zeta. rewrite Hne. reflexivity.
  - apply forEach_skip. cbv zeta. rewrite Hne. reflexivity.
Qed.


(** C6, where the code departs from it. With toasts on, the listeners of
    the kinds [TimeoutHandled] and [GameCancelled] show no toast: they ask
    [toast.warning] and [toast.info] of react-hot-toast, which has neither, so
    on a batch that holds a log of the watched game they throw a [TypeError]
    at the first such log, before any toast, callback or console line. These
    are two of the six listeners. *)
Theorem missing_toast_methods_throw
    (gameId : option number) (onEvent : option EventCallback) (options : option Options)
    (logs : list Log) :
  toastsOn options = true ->
  map eventName
    (filter (fun w => toastFails (eventName w)) (useGameEvents gameId onEvent options))
  = [TimeoutHandled; GameCancelled]
  /\ Forall
       (fun w =>
          toastFails (eventName w) = true ->
          onLogs w logs = match filter (forGame gameId) logs with
                          | [] => ret tt
                          | _ :: _ => throw TypeError
                          end)
       (useGameEvents gameId onEvent options).
Proof.
  intros Hon. rewrite useGameEvents_watchers. split; [reflexivity|].
  apply Forall_forall. intros w Hin.
  apply in_map_iff in Hin. destruct Hin as (t & <- & _). cbn [eventName onLogs].
  intros Hfails. rewrite Hon. apply handleEvent_missing_toast_batch. exact Hfails.
Qed.

(** C7, where the code departs from it. [useGameEventRefresh] passes no
    options, so its listeners run with toasts on: for an event of the kinds
    [TimeoutHandled] and [GameCancelled] of the given game the listener
    throws a [TypeError] at the missing toast method, before the callback,
    and the refresh callback is not run, whatever it is and whatever logs
    follow. *)
Theorem refresh_is_not_reached_after_a_missing_toast
    (gameId : number) (onRefresh : Run unit) (log : Log) (rest : list Log) :
  forGame (Some gameId) log = true ->
  map eventName
    (filter (fun w => toastFails (eventName w)) (useGameEventRefresh gameId onRefresh))
  = [TimeoutHandled; GameCancelled]
  /\ Forall
       (fun w => toastFails (eventName w) = true -> onLogs w (log :: rest) = throw TypeError)
       (useGameEventRefresh gameId onRefresh).
Proof.
  intros Hfor. unfold useGameEventRefresh. rewrite useGameEvents_watchers.
  split; [reflexivity|].
  apply Forall_forall. intros w Hin.
  apply in_map_iff in Hin. destruct Hin as (t & <- & _). cbn [eventName onLogs toastsOn].
  intros Hfails.
  rewrite handleEvent_cons, (handleEvent_missing_toast _ _ _ _ Hfails Hfor). reflexivity.
Qed.

End WithEnv.

(** A run of C3's theorem: a log of game 5 while game 7 is watched. *)
Lemma other_game_logs_are_skipped_witness :
  strict_eq (Number (args_gameId (log_args (Demo.liveLog 5)))) (NInt 7) = false
  /\ @handleEvent Demo.env (Some (NInt 7)) (Some Demo.printEvent) true MoveMade
       [Demo.liveLog 7; Demo.liveLog 5; Demo.liveLog 7]
     = @handleEvent Demo.env (Some (NInt 7)) (Some Demo.printEvent) true MoveMade
         [Demo.liveLog 7; Demo.liveLog 7].
Proof.
  split; [reflexivity|].
  apply (@other_game_logs_are_skipped Demo.env (NInt 7) (Some Demo.printEvent) true
           MoveMade [Demo.liveLog 7] [Demo.liveLog 7] (Demo.liveLog 5)).
  reflexivity.
Defined.

(** C3 as stated fails: the log carries the identifier [2^53 + 1], the
    watched game is [2^53]; the two differ, yet the toast is shown and the
    callback is handed the record. *)
Lemma callback_runs_for_a_rounded_identifier :
  exists event,
    trace (@handleEvent Demo.env (Some (NInt (2 ^ 53))) (Some Demo.printEvent) true
             MoveMade [Demo.liveLog (2 ^ 53 + 1)])
    = [Toast success [Lit "🎯 Move made: "; Interp (VBigInt 3);
                      Lit " → "; Interp (VBigInt 12)];
       ConsoleLog [Lit "got"] (Some event);
       ConsoleLog [Lit "📡 Event: "; Interp (VString "MoveMade")] (Some event)]
    /\ gameId event = Some (2 ^ 53 + 1)
    /\ sameId (2 ^ 53 + 1) (NInt (2 ^ 53)) = false.
Proof. eexists. vm_compute. repeat split. Qed.

(** A run of C6's departure: the six listeners of [useGameEvents(7,
    printEvent)] on a batch of games 5 and 7. *)
Lemma missing_toast_methods_throw_witness :
  Forall
    (fun w =>
       toastFails (eventName w) = true ->
       onLogs w [Demo.liveLog 5; Demo.liveLog 7] = throw (@TypeError Demo.env))
    (@useGameEvents Demo.env (Some (NInt 7)) (Some Demo.printEvent) None).
Proof.
  apply (@missing_toast_methods_throw Demo.env (Some (NInt 7)) (Some Demo.printEvent) None
           [Demo.liveLog 5; Demo.liveLog 7]).
  reflexivity.
Defined.

(** A run of C7's departure: the listeners of [useGameEventRefresh(7,
    refresh)] on two logs of game 7. *)
Lemma refresh_is_not_reached_after_a_missing_toast_witness :
  Forall
    (fun w =>
       toastFails (eventName w) = true ->
       onLogs w [Demo.liveLog 7; Demo.liveLog 7] = throw (@TypeError Demo.env))
    (@useGameEventRefresh Demo.env (NInt 7) Demo.refresh).
Proof.
  apply (@refresh_is_not_reached_after_a_missing_toast Demo.env (NInt 7) Demo.refresh
           (Demo.liveLog 7) [Demo.liveLog 7]).
  reflexivity.
Defined.

(** The [TimeoutHandled] handler of game 7 with the callback [printEvent]:
    with toasts on it throws at the first log and the callback prints
    nothing; with toasts off the callback is handed the record. *)
Example timeout_handler_runs :
  @handleEvent Demo.env (Some (NInt 7)) (Some Demo.printEvent) true TimeoutHandled
    [Demo.liveLog 7]
  = ([], inl "TypeError")
  /\ exists event,
       @handleEvent Demo.env (Some (NInt 7)) (Some Demo.printEvent) false TimeoutHandled
         [Demo.liveLog 7]
       = ([ConsoleLog [Lit "got"] (Some event);
           ConsoleLog [Lit "📡 Event: "; Interp (VString "TimeoutHandled")] (Some event)],
          inr tt).
Proof. split; [reflexivity | eexists; reflexivity]. Qed.

(** The run the refresh listener makes on one log of its game: toast,
    auto-refresh line, the caller's refresh, event line. *)
Example refresh_listener_run :
  exists event,
    onLogs Demo.finishedWatcher [Demo.liveLog 7; Demo.liveLog 5]
    = ([Toast success [Lit "🎉 Game finished!"];
        ConsoleLog [Lit "🔄 Auto-refreshing game "; Interp (VNumber (NInt 7));
                    Lit " due to "; Interp (VString "GameFinished")] None;
        ConsoleLog [Lit "refresh"] None;
        ConsoleLog [Lit "📡 Event: "; Interp (VString "GameFinished")] (Some event)],
       inr tt).
Proof. eexists. vm_compute. reflexivity. Qed.

End SubscriptionFacts.

(** * The historical fetch *)
Module HistoryFacts.
Import JS Eff GameEvents EffFacts NumberFacts.
Local Open Scope eff_scope.

Section WithEnv.
Context `{Env}.

(** The filter callback never throws and prints nothing. *)
Lemma isGameLog_ret (target : number) (log : RawLog) :
  isGameLog target log =
  ret match decodeEventLog ZeroSumSimplifiedABI (data log) (topics log) with
      | inr decoded =>
          match decoded_args decoded with
          | Some a =>
              match args_gameId a with
              | Some id => truthyAndSame id target
              | None => false
              end
          | None => false
          end
      | inl _ => false
      end.
Proof.
  unfold isGameLog.
  destruct (decodeEventLog ZeroSumSimplifiedABI (data log) (topics log)); reflexivity.
Qed.

(** The filter and the map together keep, per log, what [matchingEntry]
    describes with the test [truthyAndSame]: the second decoding of a kept
    log succeeds as the first did. *)
Lemma filter_then_map (target : number) (logs : list RawLog) :
  (kept <- filterM (isGameLog target) logs ;; mapM toEventData kept)
  = ret (matchingEntries truthyAndSame target logs).
Proof.
  induction logs as [|log logs IH]; [reflexivity|].
  cbn [filterM matchingEntries flat_map].
  fold (matchingEntries truthyAndSame target logs).
  rewrite isGameLog_ret, !bind_assoc, bind_ret_l, bind_assoc.
  assert (Hdrop :
    (ys <- filterM (isGameLog target) logs ;; kept <- ret ys ;; mapM toEventData kept)
    = ret (matchingEntries truthyAndSame target logs)).
  { rewrite <- IH. apply bind_ext. intros ys. apply bind_ret_l. }
  unfold matchingEntry.
  destruct (decodeEventLog ZeroSumSimplifiedABI (data log) (topics log))
    as [e|[name [a|]]] eqn:Hdec; cbn [decoded_args decoded_eventName app];
    try exact Hdrop.
  destruct (args_gameId a) as [id|] eqn:Hid; [|exact Hdrop].
  destruct (truthyAndSame id target); [|exact Hdrop].
  cbn [app].
  transitivity
    (rest <- (kept <- filterM (isGameLog target) logs ;; mapM toEventData kept) ;;
     ret ({| type := name; gameId := Some id; args := a;
             blockNumber := raw_blockNumber log;
             transactionHash := raw_transactionHash log |} :: rest)).
  - rewrite bind_assoc. apply bind_ext. intros ys. rewrite bind_ret_l.
    cbn [mapM]. unfold toEventData, call. rewrite Hdec.
    change (@pair (list (Action Error)) (Error + Decoded) [] (inr ?d))
      with (@ret (Action Error) Error _ d).
    rewrite bind_ret_l. cbn [decoded_args decoded_eventName].
    rewrite Hid, bind_ret_l. reflexivity.
  - rewrite IH, bind_ret_l. reflexivity.
Qed.

(** The [try] block throws what the range query throws and nothing else. *)
Lemma fetchBody_run (client : PublicClient) (target : number) (fromBlock : Z) :
  fetchBody client target fromBlock =
  match getLogs client (rangeQuery fromBlock) with
  | inl e => throw e
  | inr logs => ret (matchingEntries truthyAndSame target logs)
  end.
Proof.
  unfold fetchBody. fold (rangeQuery fromBlock).
  destruct (getLogs client (rangeQuery fromBlock)) as [e|logs]; [reflexivity|].
  change (call (inr logs)) with (@ret (Action Error) Error _ logs).
  rewrite bind_ret_l.
  rewrite <- (filter_then_map target logs).
  apply bind_ext. intros kept. apply bind_ret_r.
Qed.

(** The whole run of [fetchEvents] with a client. *)
Lemma fetchEvents_run (client : PublicClient) (target : number) (fromBlock : Z) :
  fetchEvents (Some client) target fromBlock =
  match getLogs client (rangeQuery fromBlock) with
  | inl e => ([ConsoleError "Error fetching event history:" e], inr [])
  | inr logs => ret (matchingEntries truthyAndSame target logs)
  end.
Proof.
  unfold fetchEvents. rewrite fetchBody_run.
  destruct (getLogs client (rangeQuery fromBlock)); reflexivity.
Qed.

Lemma matchingEntries_app (same : Z -> number -> bool) (target : number)
    (l1 l2 : list RawLog) :
  matchingEntries same target (l1 ++ l2)
  = matchingEntries same target l1 ++ matchingEntries same target l2.
Proof. apply flat_map_app. Qed.

Lemma matchingEntries_ext (same same' : Z -> number -> bool) (target : number)
    (logs : list RawLog) :
  (forall id, same id target = same' id target) ->
  matchingEntries same target logs = matchingEntries same' target logs.
Proof.
  intros E. unfold matchingEntries. apply flat_map_ext. intros log.
  unfold matchingEntry.
  destruct (decodeEventLog _ _ _) as [e|[name [a|]]]; cbn [decoded_args]; try reflexivity.
  destruct (args_gameId a); [rewrite E|]; reflexivity.
Qed.

(** A log that contributes no entry can be dropped from the range. *)
Lemma matchingEntries_drop (same : Z -> number -> bool) (target : number)
    (pre post : list RawLog) (log : RawLog) :
  matchingEntry same target log = [] ->
  matchingEntries same target (pre ++ log :: post)
  = matchingEntries same target (pre ++ post).
Proof.
  intros E. rewrite !matchingEntries_app. f_equal.
  cbn [matchingEntries flat_map]. rewrite E. reflexivity.
Qed.

(** With the target zero no identifier passes the filter's test. *)
Lemma no_entry_for_target_zero (logs : list RawLog) :
  matchingEntries truthyAndSame (NInt 0) logs = [].
Proof.
  unfold matchingEntries. induction logs as [|l logs IH]; [reflexivity|].
  cbn [flat_map]. rewrite IH, app_nil_r.
  unfold matchingEntry.
  destruct (decodeEventLog _ _ _) as [e'|[name [a'|]]]; cbn [decoded_args]; try reflexivity.
  destruct (args_gameId a') as [id|]; [|reflexivity].
  unfold truthyAndSame, sameAsNumber. cbn [truthy].
  destruct (Z.eqb_spec id 0) as [-> | Hne]; [reflexivity|].
  cbn [negb andb].
  destruct (BigIntToNumber id) as [z| | | |] eqn:Hn; try reflexivity.
  cbn [strict_eq]. destruct (Z.eqb_spec z 0) as [-> | Hz]; [|reflexivity].
  apply BigIntToNumber_zero in Hn. contradiction.
Qed.

(** C4. A log of the queried range whose decoding throws is left out of the
    result: the fetch returns what it returns on the range without that log.
    The error is swallowed: the fetch returns normally and prints nothing. *)
Theorem undecodable_logs_are_dropped
    (client : PublicClient) (target : number) (fromBlock : Z)
    (pre post : list RawLog) (log : RawLog) (e : Error) :
  getLogs client (rangeQuery fromBlock) = inr (pre ++ log :: post) ->
  decodeEventLog ZeroSumSimplifiedABI (data log) (topics log) = inl e ->
  fetchEvents (Some client) target fromBlock
  = fetchEvents (Some (clientReturning (pre ++ post))) target fromBlock
  /\ trace (fetchEvents (Some client) target fromBlock) = []
  /\ exists events, outcome (fetchEvents (Some client) target fromBlock) = inr events.
Proof.
  intros Hlogs Hdec. rewrite !fetchEvents_run, Hlogs. cbn [clientReturning getLogs].
  assert (Hdrop : matchingEntry truthyAndSame target log = [])
    by (unfold matchingEntry; rewrite Hdec; reflexivity).
  rewrite (matchingEntries_drop _ _ _ _ _ Hdrop).
  split; [reflexivity|]. split; [reflexivity|]. eexists. reflexivity.
Qed.

(** C9. [fetchEvents] never throws: whatever the client, the target and the
    decoder, it returns a list. Without a public client it returns the empty
    list at once; whatever the [try] block throws (its range query, or its
    mapping step) is caught, printed with [console.error], and the empty list
    is returned; in particular so when the range query rejects. *)
Theorem fetchEvents_never_throws
    (publicClient : option PublicClient) (target : number) (fromBlock : Z) :
  (exists events, outcome (fetchEvents publicClient target fromBlock) = inr events)
  /\ fetchEvents None target fromBlock = ret []
  /\ (forall client,
        match fetchBody client target fromBlock with
        | (t, inl e) =>
            fetchEvents (Some client) target fromBlock
            = (t ++ [ConsoleError "Error fetching event history:" e], inr [])
        | (t, inr events) =>
            fetchEvents (Some client) target fromBlock = (t, inr events)
        end)
  /\ (forall client e,
        getLogs client (rangeQuery fromBlock) = inl e ->
        fetchEvents (Some client) target fromBlock
        = ([ConsoleError "Error fetching event history:" e], inr [])).
Proof.
  split; [|split; [reflexivity|split]].
  - destruct publicClient as [client|]; [|eexists; reflexivity].
    rewrite fetchEvents_run. destruct (getLogs _ _); eexists; reflexivity.
  - intros client. unfold fetchEvents.
    destruct (fetchBody client target fromBlock) as [t [e|events]]; reflexivity.
  - intros client e He. rewrite fetchEvents_run, He. reflexivity.
Qed.

(** C10. A log whose decoded identifier is [0n] is left out of the result
    whatever the target: the fetch returns what it returns on the range
    without that log. This holds for the target zero too, for which the fetch
    returns the empty list: the filter wants the identifier truthy before it
    compares it. *)
Theorem zero_identifier_logs_are_dropped
    (client : PublicClient) (target : number) (fromBlock : Z)
    (pre post : list RawLog) (log : RawLog) (decoded : Decoded) (a : Args) :
  getLogs client (rangeQuery fromBlock) = inr (pre ++ log :: post) ->
  decodeEventLog ZeroSumSimplifiedABI (data log) (topics log) = inr decoded ->
  decoded_args decoded = Some a ->
  args_gameId a = Some 0 ->
  fetchEvents (Some client) target fromBlock
  = fetchEvents (Some (clientReturning (pre ++ post))) target fromBlock
  /\ fetchEvents (Some client) (NInt 0) fromBlock = ret [].
Proof.
  intros Hlogs Hdec Hargs Hid. rewrite !fetchEvents_run, Hlogs.
  cbn [clientReturning getLogs]. split.
  - rewrite matchingEntries_drop; [reflexivity|].
    unfold matchingEntry. rewrite Hdec, Hargs, Hid. reflexivity.
  - rewrite no_entry_for_target_zero. reflexivity.
Qed.

End WithEnv.

(** A run of C4's theorem: the second log of [range] does not decode. *)
Lemma undecodable_logs_are_dropped_witness :
  @decodeEventLog Demo.env tt "0xjunk" [] = inl "AbiEventSignatureNotFoundError"
  /\ @fetchEvents Demo.env (Some (Demo.clientWith Demo.range)) (NInt 1) 0
     = @fetchEvents Demo.env
         (Some (clientReturning
                  [Demo.rawLog "move#7" 10; Demo.rawLog "created#1" 12;
                   Demo.rawLog "joined#0" 13]))
         (NInt 1) 0.
Proof.
  split; [reflexivity|].
  apply (@undecodable_logs_are_dropped Demo.env (Demo.clientWith Demo.range) (NInt 1) 0
           [Demo.rawLog "move#7" 10]
           [Demo.rawLog "created#1" 12; Demo.rawLog "joined#0" 13]
           (Demo.rawLog "0xjunk" 11) "AbiEventSignatureNotFoundError").
  - reflexivity.
  - reflexivity.
Defined.

(** A run of C10's theorem: the last log of [range] is of game 0, and the
    history of game 0 is empty. *)
Lemma zero_identifier_logs_are_dropped_witness :
  @fetchEvents Demo.env (Some (Demo.clientWith Demo.range)) (NInt 0) 0
  = @fetchEvents Demo.env
      (Some (clientReturning
               [Demo.rawLog "move#7" 10; Demo.rawLog "0xjunk" 11;
                Demo.rawLog "created#1" 12]))
      (NInt 0) 0
  /\ @fetchEvents Demo.env (Some (Demo.clientWith Demo.range)) (NInt 0) 0 = ret [].
Proof.
  apply (@zero_identifier_logs_are_dropped Demo.env (Demo.clientWith Demo.range) (NInt 0) 0
           [Demo.rawLog "move#7" 10; Demo.rawLog "0xjunk" 11; Demo.rawLog "created#1" 12]
           [] (Demo.rawLog "joined#0" 13)
           {| decoded_eventName := "PlayerJoined";
              decoded_args :=
                Some {| args_gameId := Some 0;
                        args_fields := [("player", VString "0xB0B")] |} |}
           {| args_gameId := Some 0; args_fields := [("player", VString "0xB0B")] |}).
  - reflexivity.
  - reflexivity.
  - reflexivity.
  - reflexivity.
Defined.

(** Runs of the fetch in surroundings whose decoder works: the history of
    game 7, no client, a rejecting query. *)
Example fetchEvents_runs :
  @fetchEvents Demo.env (Some (Demo.clientWith Demo.range)) (NInt 7) 0
  = ([], inr [ {| type := "MoveMade";
                  gameId := Some 7;
                  args := {| args_gameId := Some 7;
                             args_fields := [("subtraction", VBigInt 3);
                                             ("newNumber", VBigInt 12)] |};
                  blockNumber := 10;
                  transactionHash := "0xhash" |} ])
  /\ @useGameEventHistory Demo.env None (NInt 7) None = ([], inr [])
  /\ @fetchEvents Demo.env (Some Demo.failingClient) (NInt 7) 0
     = ([ConsoleError "Error fetching event history:" "rpc unreachable"], inr []).
Proof. repeat split. Qed.

(** The mapping step alone throws on a log that does not decode. *)
Example toEventData_throws :
  @toEventData Demo.env (Demo.rawLog "0xjunk" 11)
  = ([], inl "AbiEventSignatureNotFoundError").
Proof. reflexivity. Qed.

End HistoryFacts.

(** * The module as it is written *)
Module AsWritten.
Import JS Eff GameEvents EffFacts SubscriptionFacts HistoryFacts.
Local Open Scope eff_scope.

(** With [decodeEventLog] unbound the filter keeps no log: every call throws
    inside the filter's [try], which answers [false]. *)
Lemma as_written_no_entry (env : Env) (referenceError : @Error env)
    (target : number) (logs : list RawLog) :
  @matchingEntries (moduleAsWritten env referenceError) truthyAndSame target logs = [].
Proof.
  unfold matchingEntries. induction logs as [|log logs IH]; [reflexivity|].
  cbn [flat_map]. rewrite IH. reflexivity.
Qed.

(** The whole run of the fetch in the module as written. *)
Lemma as_written_fetch_run (env : Env) (referenceError : @Error env)
    (client : @PublicClient (moduleAsWritten env referenceError))
    (target : number) (fromBlock : Z) :
  @fetchEvents (moduleAsWritten env referenceError) (Some client) target fromBlock
  = match @getLogs (moduleAsWritten env referenceError) client
            (@rangeQuery (moduleAsWritten env referenceError) fromBlock) with
    | inl e => ([ConsoleError "Error fetching event history:" e], inr [])
    | inr _ => ret []
    end.
Proof.
  rewrite fetchEvents_run. destruct (getLogs _ _) as [e|logs]; [reflexivity|].
  rewrite as_written_no_entry. reflexivity.
Qed.

(** C1, where the code departs from it. The module calls [decodeEventLog]
    without importing or defining it, so every call throws a
    [ReferenceError], the filter's [catch] answers [false] for every log, and
    [fetchEvents] returns the empty list whatever the client, the target and
    the logs of the range: no log that decodes against the ABI to the target
    game gets a record. *)
Theorem fetchEvents_as_written_returns_nothing
    (env : Env) (referenceError : @Error env)
    (publicClient : option (@PublicClient (moduleAsWritten env referenceError)))
    (target : number) (fromBlock : Z) :
  outcome (@fetchEvents (moduleAsWritten env referenceError) publicClient target fromBlock)
  = inr [].
Proof.
  destruct publicClient as [client|]; [|reflexivity].
  rewrite as_written_fetch_run. destruct (getLogs _ _); reflexivity.
Qed.


(** The failing run of C1: the range holds one log, a move of game 7 that
    decodes with a working decoder, and the history of game 7 in the module
    as written is empty. *)
Example fetch_as_written_misses_a_move_of_the_game :
  @decodeEventLog Demo.env tt "move#7" []
  = inr {| decoded_eventName := "MoveMade";
           decoded_args :=
             Some {| args_gameId := Some 7;
                     args_fields := [("subtraction", VBigInt 3);
                                     ("newNumber", VBigInt 12)] |} |}
  /\ @fetchEvents (moduleAsWritten Demo.env "ReferenceError: decodeEventLog is not defined")
       (Some (@clientReturning
                (moduleAsWritten Demo.env "ReferenceError: decodeEventLog is not defined")
                [Demo.rawLog "move#7" 10]))
       (NInt 7) 0
     = ([], inr []).
Proof. split; reflexivity. Qed.

End AsWritten.

(** * More on the adapter *)
Module AdapterMore.
Import JS Eff Adapter Observations AdapterFacts.
Local Open Scope eff_scope.

Section WithLibraries.
Context `{Libraries}.

(** X1. A falsy chain identifier ([undefined], [null], [0], [NaN], the empty
    string, [false], [0n]) is replaced by 84532 before anything is printed or
    built: [getProvider] and [getContract] run exactly as they do for 84532,
    and so does [getViemClient] after its first line, which prints the
    identifier as given. *)
Theorem falsy_chain_id_is_base_sepolia
    (address : Value) (abi : Abi) (wagmiConfig chainId : Value) :
  truthy chainId = false ->
  getProvider chainId = getProvider (VNumber (NInt 84532))
  /\ getContract address abi chainId = getContract address abi (VNumber (NInt 84532))
  /\ outcome (getViemClient wagmiConfig chainId)
     = outcome (getViemClient wagmiConfig (VNumber (NInt 84532)))
  /\ tl (trace (getViemClient wagmiConfig chainId))
     = tl (trace (getViemClient wagmiConfig (VNumber (NInt 84532)))).
Proof.
  intros Hfalsy.
  assert (Hp : getProvider chainId = getProvider (VNumber (NInt 84532))).
  { unfold getProvider. cbv zeta. rewrite Hfalsy. reflexivity. }
  split; [exact Hp|]. split.
  - unfold getContract. rewrite Hp. reflexivity.
  - rewrite !getViemClient_run. unfold targetChainIdOf, clientConstruction. cbv zeta.
    rewrite Hfalsy. change (truthy (VNumber (NInt 84532))) with true. cbv iota.
    change (interpolate (VNumber (NInt 84532))) with (@inr Error _ (Interp (VNumber (NInt 84532)))).
    cbv iota.
    assert (Hurl : expectedRpcUrl chainId = expectedRpcUrl (VNumber (NInt 84532))).
    { destruct (expectedRpcUrl_other chainId) as [-> | ->]; [discriminate Hfalsy | reflexivity]. }
    assert (Hchain : expectedChain chainId = expectedChain (VNumber (NInt 84532))).
    { destruct (expectedChain_other chainId) as [-> | ->]; [discriminate Hfalsy | reflexivity]. }
    rewrite Hurl, Hchain.
    destruct (http _) as [e|t]; [split; reflexivity|].
    destruct (createPublicClient _ t); split; reflexivity.
Qed.

(** X2. A function prints one [console.error] line exactly when one of its
    constructions throws, and none otherwise: none when it returns, and none
    when a line printed before the [try] throws while converting the chain
    identifier or the address to a string. [getContract] prints one line, not
    two, when its provider cannot be built. *)
Theorem one_error_line_per_failed_construction
    (address : Value) (abi : Abi) (wagmiConfig chainId : Value) :
  errorLines (trace (getProvider chainId))
  = match interpolate (targetChainIdOf chainId) with
    | inl _ => 0%nat
    | inr _ =>
        match JsonRpcProvider (expectedRpcUrl chainId) with
        | inl _ => 1%nat
        | inr _ => 0%nat
        end
    end
  /\ errorLines (trace (getContract address abi chainId))
     = match interpolate (targetChainIdOf chainId) with
       | inl _ => 0%nat
       | inr _ =>
           match JsonRpcProvider (expectedRpcUrl chainId) with
           | inl _ => 1%nat
           | inr provider =>
               match interpolate address with
               | inl _ => 0%nat
               | inr _ =>
                   match Contract address abi provider with
                   | inl _ => 1%nat
                   | inr _ => 0%nat
                   end
               end
           end
       end
  /\ errorLines (trace (getViemClient wagmiConfig chainId))
     = match interpolate (targetChainIdOf chainId) with
       | inl _ => 0%nat
       | inr _ =>
           match clientConstruction chainId with
           | inl _ => 1%nat
           | inr _ => 0%nat
           end
       end
  /\ errorLines (trace (getViemWalletClient wagmiConfig chainId))
     = match getConnectorClient wagmiConfig chainId with
       | inl _ => 1%nat
       | inr _ => 0%nat
       end.
Proof.
  rewrite getContract_run, getProvider_run, getViemClient_run.
  unfold getViemWalletClient. cbv zeta.
  repeat split.
  - destruct (interpolate _); [reflexivity|]. destruct (JsonRpcProvider _); reflexivity.
  - destruct (interpolate (targetChainIdOf chainId)) as [e|piece]; [reflexivity|].
    destruct (JsonRpcProvider _) as [e|provider]; [reflexivity|].
    destruct (interpolate address) as [e|piece']; [reflexivity|].
    destruct (Contract address abi provider); reflexivity.
  - destruct (interpolate _); [reflexivity|]. destruct (clientConstruction _); reflexivity.
  - destruct (getConnectorClient _ _); reflexivity.
Qed.

(** X3. [getViemClient] never pairs a chain with the other chain's URL. In
    every run that gets past the line that prints the chain, the client is
    built for [base] over the mainnet URL and the line names [base] when the
    identifier is the number 8453, and it is built for [baseSepolia] over
    the testnet URL and the line names [baseSepolia] for every other
    identifier. In the other runs (the identifier is an object whose
    conversion to a string throws) nothing is built. *)
Theorem viem_chain_and_url_agree (wagmiConfig chainId : Value) :
  match interpolate (targetChainIdOf chainId) with
  | inl e => outcome (getViemClient wagmiConfig chainId) = inl e
  | inr piece =>
      (chainId = VNumber (NInt 8453)
       /\ outcome (getViemClient wagmiConfig chainId) = buildClient base mainnetUrl
       /\ In (ConsoleLog [Lit "🔗 Creating viem client for chain "; piece;
                          Lit " ("; Interp (VString (chain_name base)); Lit ")"])
            (trace (getViemClient wagmiConfig chainId)))
      \/ (chainId <> VNumber (NInt 8453)
          /\ outcome (getViemClient wagmiConfig chainId) = buildClient baseSepolia sepoliaUrl
          /\ In (ConsoleLog [Lit "🔗 Creating viem client for chain "; piece;
                             Lit " ("; Interp (VString (chain_name baseSepolia)); Lit ")"])
               (trace (getViemClient wagmiConfig chainId)))
  end.
Proof.
  rewrite getViemClient_run. cbv zeta. unfold clientConstruction, buildClient.
  destruct (interpolate _) as [e|piece]; [reflexivity|].
  destruct (expectedRpcUrl_other chainId) as [-> | Hurl].
  - left. split; [reflexivity|].
    change (expectedRpcUrl (VNumber (NInt 8453))) with mainnetUrl.
    change (expectedChain (VNumber (NInt 8453))) with base.
    destruct (http mainnetUrl) as [e|t]; [split; [reflexivity | right; left; reflexivity]|].
    destruct (createPublicClient base t); split; try reflexivity; right; left; reflexivity.
  - right.
    assert (Hne : chainId <> VNumber (NInt 8453)).
    { intros ->. discriminate Hurl. }
    destruct (expectedChain_other chainId) as [-> | Hchain]; [contradiction|].
    rewrite Hurl, Hchain. split; [exact Hne|].
    destruct (http sepoliaUrl) as [e|t]; [split; [reflexivity | right; left; reflexivity]|].
    destruct (createPublicClient baseSepolia t);
      split; try reflexivity; right; left; reflexivity.
Qed.

(** X4. The configuration handed to [getViemClient] decides nothing but the
    [hasConfig] flag of the first line printed: the rest of the run and the
    outcome are the same for any two configurations. *)
Theorem viem_client_ignores_its_config (config1 config2 chainId : Value) :
  outcome (getViemClient config1 chainId) = outcome (getViemClient config2 chainId)
  /\ tl (trace (getViemClient config1 chainId)) = tl (trace (getViemClient config2 chainId))
  /\ hd_error (trace (getViemClient config1 chainId))
     = Some (ConsoleLogCall "🔧 getViemClient called with:" chainId (truthy config1)).
Proof.
  rewrite !getViemClient_run. cbv zeta.
  destruct (interpolate _); [repeat split|].
  destruct (clientConstruction chainId); repeat split.
Qed.

(** X5. [getContract] starts as [getProvider] does. When the provider cannot
    be built, or the address is an object whose conversion to a string
    throws, the run stops there: it is the run of [getProvider] and what was
    thrown, the contract is not built, whatever the ABI. Otherwise
    [getContract] goes on with the contract line and one more line, and ends
    as the contract constructor does on that provider. *)
Theorem contract_run_extends_provider_run
    (address : Value) (abi : Abi) (chainId : Value) :
  match outcome (getProvider chainId) with
  | inl e => getContract address abi chainId = (trace (getProvider chainId), inl e)
  | inr provider =>
      match interpolate address with
      | inl e => getContract address abi chainId = (trace (getProvider chainId), inl e)
      | inr piece =>
          outcome (getContract address abi chainId) = Contract address abi provider
          /\ exists final,
               trace (getContract address abi chainId)
               = trace (getProvider chainId)
                 ++ [ConsoleLog [Lit "📄 Creating contract at "; piece]; final]
      end
  end.
Proof.
  rewrite getContract_run.
  destruct (getProvider chainId) as [t [e|p]]; cbn [outcome trace fst snd]; [reflexivity|].
  destruct (interpolate address) as [e|piece]; [reflexivity|].
  cbv zeta. destruct (Contract address abi p); cbn [fst snd];
    (split; [reflexivity|]); eexists; rewrite <- app_assoc; reflexivity.
Qed.

End WithLibraries.

(** A run of X1's theorem. A run of the fallback: the identifier [0] on
    libraries whose testnet endpoint is down. *)
Lemma falsy_chain_id_is_base_sepolia_witness :
  @getProvider (Demo.libraries "https://sepolia.base.org") (VNumber (NInt 0))
  = @getProvider (Demo.libraries "https://sepolia.base.org") (VNumber (NInt 84532)).
Proof.
  apply (@falsy_chain_id_is_base_sepolia (Demo.libraries "https://sepolia.base.org")
           (VString "0xC0FFEE") tt VNull (VNumber (NInt 0))).
  reflexivity.
Defined.

End AdapterMore.

(** * More on the subscription hook *)
Module SubscriptionMore.
Import JS Eff GameEvents Observations EffFacts NumberFacts SubscriptionFacts.
Local Open Scope eff_scope.

(** No bigint, and no missing identifier, converts to [NaN] or to a double
    that is not an integer. *)
Lemma never_an_identifier (v : option Z) (target : number) :
  neverAnIdentifier target = true -> strict_eq (Number v) target = false.
Proof.
  intros Hnever. destruct v as [z|]; cbn [Number].
  - unfold BigIntToNumber. cbv zeta.
    destruct (max_double <? round53 (Z.abs z));
      [destruct (0 <? z)|]; destruct target; try reflexivity; discriminate Hnever.
  - destruct target; reflexivity.
Qed.

Section WithEnv.
Context `{Env}.

(** One log of the watched game when the toast, if one is asked for, is
    asked of a method that exists: the toast, the callback, the event
    line. *)
Lemma handleEvent_one (gameId : option number) (onEvent : option EventCallback)
    (showToasts : bool) (eventName : GameEventType) (log : Log) :
  showToasts && toastFails eventName = false ->
  forGame gameId log = true ->
  handleEvent gameId onEvent showToasts eventName [log]
  = ((toastFor showToasts eventName log, inr tt) ;;
     match onEvent with
     | Some callback => callback (eventDataOf eventName log)
     | None => ret tt
     end ;;
     emit (ConsoleLog [Lit "📡 Event: "; Interp (VString (tag eventName))]
             (Some (eventDataOf eventName log)))).
Proof.
  intros Hok Hfor. unfold handleEvent. rewrite forEach_one. cbv zeta.
  rewrite (guard_open _ _ Hfor).
  unfold toastFor. destruct showToasts; [|reflexivity].
  destruct eventName; try reflexivity; discriminate Hok.
Qed.

(** The whole run of a handler whose callback always returns. *)
Lemma handleEvent_returning_run (gameId : option number) (onEvent : option EventCallback)
    (done : GameEventData -> list (Action Error))
    (showToasts : bool) (eventName : GameEventType) (logs : list Log) :
  (forall event,
     match onEvent with
     | Some callback => callback event
     | None => ret tt
     end = (done event, inr tt)) ->
  showToasts && toastFails eventName = false ->
  handleEvent gameId onEvent showToasts eventName logs
  = (flat_map
       (fun log =>
          toastFor showToasts eventName log
          ++ done (eventDataOf eventName log)
          ++ [ConsoleLog [Lit "📡 Event: "; Interp (VString (tag eventName))]
                (Some (eventDataOf eventName log))])
       (filter (forGame gameId) logs),
     inr tt).
Proof.
  intros Hdone Hok. induction logs as [|log logs IH]; [reflexivity|].
  cbn [filter]. rewrite handleEvent_cons, IH.
  destruct (forGame gameId log) eqn:Hfor.
  - rewrite (handleEvent_one _ _ _ _ _ Hok Hfor), Hdone. cbn [flat_map].
    unfold bind, ret, emit. cbn [app]. rewrite <- !app_assoc. reflexivity.
  - rewrite (handleEvent_other _ _ _ _ _ Hfor). reflexivity.
Qed.

(** The whole run of a handler that has no callback. *)
Lemma handleEvent_no_callback_run (gameId : option number) (showToasts : bool)
    (eventName : GameEventType) (logs : list Log) :
  showToasts && toastFails eventName = false ->
  handleEvent gameId None showToasts eventName logs
  = (flat_map
       (fun log =>
          toastFor showToasts eventName log
          ++ [ConsoleLog [Lit "📡 Event: "; Interp (VString (tag eventName))]
                (Some (eventDataOf eventName log))])
       (filter (forGame gameId) logs),
     inr tt).
Proof.
  intros Hok.
  apply (handleEvent_returning_run gameId None (fun _ => []) showToasts eventName logs);
    [reflexivity | exact Hok].
Qed.

Lemma toastFor_toasts (showToasts : bool) (eventName : GameEventType) (log : Log) :
  toastsOf (toastFor (Error := Error) showToasts eventName log)
  = toastFor showToasts eventName log
  /\ withoutToasts (toastFor (Error := Error) showToasts eventName log) = []
  /\ printedEvents (toastFor (Error := Error) showToasts eventName log) = [].
Proof.
  unfold toastFor. destruct showToasts; [|repeat split].
  destruct (toastTemplate eventName) as [[kind slots]|]; repeat split.
Qed.

(** X6. Every listener of [useGameEvents] handles a batch as it handles the
    batch of its logs of the watched game: the logs of other games change
    nothing, wherever they stand in the batch, whatever the callback does. *)
Theorem listeners_handle_only_their_game
    (gameId : option number) (onEvent : option EventCallback) (options : option Options)
    (logs : list Log) :
  Forall (fun w => onLogs w logs = onLogs w (filter (forGame gameId) logs))
    (useGameEvents gameId onEvent options).
Proof.
  rewrite useGameEvents_watchers. apply Forall_forall. intros w Hin.
  apply in_map_iff in Hin. destruct Hin as (t & <- & _). cbn [onLogs].
  apply handleEvent_filter.
Qed.

(** X7. When the callback throws on a log of the watched game, [handleEvent]
    throws the same value and the batch ends there: whatever logs follow,
    the run is the toast of that log and what the callback did. The event
    line of the log is not printed and no later log is handled. This is so
    whenever the callback is reached: with toasts off, and with toasts on for
    the kinds whose toast method exists. *)
Theorem throwing_callback_ends_the_batch
    (gameId : option number) (callback : EventCallback) (showToasts : bool)
    (eventName : GameEventType) (log : Log) (rest : list Log)
    (t : list (Action Error)) (e : Error) :
  showToasts && toastFails eventName = false ->
  forGame gameId log = true ->
  callback (eventDataOf eventName log) = (t, inl e) ->
  handleEvent gameId (Some callback) showToasts eventName (log :: rest)
  = (toastFor showToasts eventName log ++ t, inl e).
Proof.
  intros Hok Hfor Hthrow.
  rewrite handleEvent_cons, (handleEvent_one _ _ _ _ _ Hok Hfor), Hthrow. reflexivity.
Qed.

(** X9. With toasts off, or with toasts on for a kind whose toast method
    exists, a handler without a callback never throws and accounts for every
    log of the watched game, in order: the records it prints are the records
    of those logs, one each, and the toasts it shows are the toasts of those
    logs (none with toasts off). *)
Theorem handler_without_callback_accounts_for_every_log
    (gameId : option number) (showToasts : bool) (eventName : GameEventType)
    (logs : list Log) :
  showToasts && toastFails eventName = false ->
  outcome (handleEvent gameId None showToasts eventName logs) = inr tt
  /\ printedEvents (trace (handleEvent gameId None showToasts eventName logs))
     = map (eventDataOf eventName) (filter (forGame gameId) logs)
  /\ toastsOf (trace (handleEvent gameId None showToasts eventName logs))
     = flat_map (toastFor showToasts eventName) (filter (forGame gameId) logs).
Proof.
  intros Hok. rewrite (handleEvent_no_callback_run _ _ _ _ Hok).
  cbn [outcome trace fst snd]. split; [reflexivity|].
  induction (filter (forGame gameId) logs) as [|log kept [IHp IHt]]; [split; reflexivity|].
  cbn [flat_map map].
  destruct (toastFor_toasts showToasts eventName log) as (Ht & _ & Hp).
  split.
  - rewrite !printedEvents_app, Hp, IHp. reflexivity.
  - unfold toastsOf in *. rewrite !filter_app, Ht, IHt.
    cbn [filter isToast]. rewrite app_nil_r. reflexivity.
Qed.

(** X10. For a kind whose toast method exists, switching the toasts off
    takes the toasts out of the run of a handler without a callback and
    changes nothing else. *)
Theorem toasts_off_removes_only_the_toasts
    (gameId : option number) (eventName : GameEventType) (logs : list Log) :
  toastFails eventName = false ->
  withoutToasts (trace (handleEvent gameId None true eventName logs))
  = trace (handleEvent gameId None false eventName logs)
  /\ outcome (handleEvent gameId None true eventName logs)
     = outcome (handleEvent gameId None false eventName logs).
Proof.
  intros Hok.
  rewrite (handleEvent_no_callback_run gameId true eventName logs Hok).
  rewrite (handleEvent_no_callback_run gameId false eventName logs eq_refl).
  cbn [outcome trace fst snd]. split; [|reflexivity].
  induction (filter (forGame gameId) logs) as [|log kept IH]; [reflexivity|].
  cbn [flat_map].
  destruct (toastFor_toasts true eventName log) as (_ & Hw & _).
  unfold withoutToasts in *. rewrite !filter_app, Hw, IH. reflexivity.
Qed.

(** X11. A batch without a log of the given game does not reach the refresh
    callback: every listener of [useGameEventRefresh] does nothing on it. *)
Theorem refresh_ignores_other_games
    (gameId : number) (onRefresh : Run unit) (logs : list Log) :
  forallb (fun log => negb (forGame (Some gameId) log)) logs = true ->
  Forall (fun w => onLogs w logs = ret tt) (useGameEventRefresh gameId onRefresh).
Proof.
  intros Hnone. unfold useGameEventRefresh. rewrite useGameEvents_watchers.
  apply Forall_forall. intros w Hin.
  apply in_map_iff in Hin. destruct Hin as (t & <- & _). cbn [onLogs].
  rewrite handleEvent_filter.
  replace (filter (forGame (Some gameId)) logs) with (@nil Log); [reflexivity|].
  induction logs as [|log logs IH]; [reflexivity|].
  cbn [forallb] in Hnone. apply andb_true_iff in Hnone. destruct Hnone as [Hlog Hrest].
  cbn [filter]. apply negb_true_iff in Hlog. rewrite Hlog. apply IH. exact Hrest.
Qed.

(** X18. For each listener of [useGameEvents] whose toast method exists
    (the kinds [PlayerJoined], [MoveMade], [GameFinished] and
    [NumberGenerated], which ask [toast.success]), when toasts are on and a
    log of the watched game is processed, the first thing the listener does
    is to show one toast, whose kind and text are the fixed template of the
    event kind filled with the arguments of the log; the rest of the run is
    what the listener does with toasts off. *)
Theorem success_toast_from_fixed_template
    (gameId : option number) (onEvent : option EventCallback) (options : option Options)
    (w : Watch) (log : Log) :
  In w (useGameEvents gameId onEvent options) ->
  toastsOn options = true ->
  toastFails (eventName w) = false ->
  forGame gameId log = true ->
  exists kind slots,
    toastTemplate (eventName w) = Some (kind, slots)
    /\ onLogs w [log] =
       (emit (Toast kind (fill (log_args log) slots)) ;;
        handleEvent gameId onEvent false (eventName w) [log]).
Proof.
  intros Hin Hon Hok Hfor. rewrite useGameEvents_watchers in Hin.
  apply in_map_iff in Hin. destruct Hin as (t & <- & Ht).
  cbn [eventName onLogs] in *. rewrite Hon.
  destruct (listened_tag_has_template t Ht) as (kind & slots & Htpl).
  exists kind, slots. split; [exact Htpl|].
  apply handleEvent_toast; try assumption.
  unfold toastFails in Hok. rewrite Htpl in Hok.
  apply negb_false_iff. exact Hok.
Qed.

(** X19. When the refresh callback returns, a listener of
    [useGameEventRefresh] whose toast method exists ([PlayerJoined],
    [MoveMade], [GameFinished], [NumberGenerated]: four of the six) runs it
    once for every log of the given game, in order, and for no other log:
    the run on a batch is, for each such log, the toast, the auto-refresh
    line, what the refresh callback did, and the event line. *)
Theorem refresh_runs_once_per_log_of_the_game
    (gameId : number) (onRefresh : Run unit) (refreshed : list (Action Error))
    (logs : list Log) :
  onRefresh = (refreshed, inr tt) ->
  map eventName
    (filter (fun w => negb (toastFails (eventName w)))
       (useGameEventRefresh gameId onRefresh))
  = [PlayerJoined; MoveMade; GameFinished; NumberGenerated]
  /\ Forall
       (fun w =>
          toastFails (eventName w) = false ->
          onLogs w logs
          = (flat_map
               (fun log =>
                  toastFor true (eventName w) log
                  ++ (ConsoleLog [Lit "🔄 Auto-refreshing game "; Interp (VNumber gameId);
                                  Lit " due to "; Interp (VString (tag (eventName w)))] None
                      :: refreshed)
                  ++ [ConsoleLog [Lit "📡 Event: "; Interp (VString (tag (eventName w)))]
                        (Some (eventDataOf (eventName w) log))])
               (filter (forGame (Some gameId)) logs),
             inr tt))
       (useGameEventRefresh gameId onRefresh).
Proof.
  intros Hreturns. unfold useGameEventRefresh. rewrite useGameEvents_watchers.
  split; [reflexivity|].
  apply Forall_forall. intros w Hin.
  apply in_map_iff in Hin. destruct Hin as (t & <- & _). cbn [eventName onLogs toastsOn].
  intros Hok.
  apply (handleEvent_returning_run (Some gameId)
           (Some (refreshCallback gameId onRefresh))
           (fun event =>
              ConsoleLog [Lit "🔄 Auto-refreshing game "; Interp (VNumber gameId);
                          Lit " due to "; Interp (VString (type event))] None
              :: refreshed)
           true t logs).
  - intros event. unfold refreshCallback. rewrite Hreturns. reflexivity.
  - exact Hok.
Qed.

End WithEnv.

(** A run of X7's theorem. A throwing callback on a batch of two logs of game 7: the second log is
    not handled. *)
Lemma throwing_callback_ends_the_batch_witness :
  @handleEvent Demo.env (Some (NInt 7)) (Some failingCallback) true MoveMade
    [Demo.liveLog 7; Demo.liveLog 7]
  = ([Toast success [Lit "🎯 Move made: "; Interp (VBigInt 3);
                     Lit " → "; Interp (VBigInt 12)]],
     inl "callback failed").
Proof.
  apply (@throwing_callback_ends_the_batch Demo.env (Some (NInt 7)) failingCallback true
           MoveMade (Demo.liveLog 7) [Demo.liveLog 7] [] "callback failed").
  - reflexivity.
  - reflexivity.
  - reflexivity.
Defined.

(** A run of X9's theorem: the [MoveMade] handler of game 7, with toasts, on
    a batch of games 7, 5 and 7. *)
Lemma handler_without_callback_accounts_for_every_log_witness :
  outcome (@handleEvent Demo.env (Some (NInt 7)) None true MoveMade
             [Demo.liveLog 7; Demo.liveLog 5; Demo.liveLog 7])
  = inr tt
  /\ printedEvents
       (trace (@handleEvent Demo.env (Some (NInt 7)) None true MoveMade
                 [Demo.liveLog 7; Demo.liveLog 5; Demo.liveLog 7]))
     = map (eventDataOf MoveMade)
         (filter (forGame (Some (NInt 7))) [Demo.liveLog 7; Demo.liveLog 5; Demo.liveLog 7])
  /\ toastsOf
       (trace (@handleEvent Demo.env (Some (NInt 7)) None true MoveMade
                 [Demo.liveLog 7; Demo.liveLog 5; Demo.liveLog 7]))
     = flat_map (toastFor true MoveMade)
         (filter (forGame (Some (NInt 7))) [Demo.liveLog 7; Demo.liveLog 5; Demo.liveLog 7]).
Proof.
  apply (@handler_without_callback_accounts_for_every_log Demo.env (Some (NInt 7)) true
           MoveMade [Demo.liveLog 7; Demo.liveLog 5; Demo.liveLog 7]).
  reflexivity.
Defined.

(** A run of X10's theorem: the [GameFinished] handler of game 7. *)
Lemma toasts_off_removes_only_the_toasts_witness :
  withoutToasts
    (trace (@handleEvent Demo.env (Some (NInt 7)) None true GameFinished
              [Demo.liveLog 7; Demo.liveLog 5]))
  = trace (@handleEvent Demo.env (Some (NInt 7)) None false GameFinished
             [Demo.liveLog 7; Demo.liveLog 5])
  /\ outcome (@handleEvent Demo.env (Some (NInt 7)) None true GameFinished
                [Demo.liveLog 7; Demo.liveLog 5])
     = outcome (@handleEvent Demo.env (Some (NInt 7)) None false GameFinished
                  [Demo.liveLog 7; Demo.liveLog 5]).
Proof.
  apply (@toasts_off_removes_only_the_toasts Demo.env (Some (NInt 7)) GameFinished
           [Demo.liveLog 7; Demo.liveLog 5]).
  reflexivity.
Defined.

(** A run of X11's theorem. The refresh listeners of game 7 on a batch of games 5 and 6. *)
Lemma refresh_ignores_other_games_witness :
  Forall (fun w => onLogs w [Demo.liveLog 5; Demo.liveLog 6] = ret tt)
    (@useGameEventRefresh Demo.env (NInt 7) Demo.refresh).
Proof.
  apply (@refresh_ignores_other_games Demo.env (NInt 7) Demo.refresh
           [Demo.liveLog 5; Demo.liveLog 6]).
  reflexivity.
Defined.

(** A run of X18's theorem: the [MoveMade] listener of
    [useGameEvents(7, printEvent)] on a log of game 7. *)
Lemma success_toast_from_fixed_template_witness :
  exists kind slots,
    toastTemplate (eventName Demo.moveWatcher) = Some (kind, slots)
    /\ onLogs Demo.moveWatcher [Demo.liveLog 7] =
       (emit (Toast kind (fill (log_args (Demo.liveLog 7)) slots)) ;;
        @handleEvent Demo.env (Some (NInt 7)) (Some Demo.printEvent) false
          (eventName Demo.moveWatcher) [Demo.liveLog 7]).
Proof.
  apply (@success_toast_from_fixed_template Demo.env (Some (NInt 7))
           (Some Demo.printEvent) None Demo.moveWatcher (Demo.liveLog 7)).
  - right. left. reflexivity.
  - reflexivity.
  - reflexivity.
  - reflexivity.
Defined.

(** A run of X19's theorem: the listeners of [useGameEventRefresh(7,
    refresh)] on a batch of games 7, 5 and 7. *)
Lemma refresh_runs_once_per_log_of_the_game_witness :
  Forall
    (fun w =>
       toastFails (eventName w) = false ->
       onLogs w [Demo.liveLog 7; Demo.liveLog 5; Demo.liveLog 7]
       = (flat_map
            (fun log =>
               toastFor true (eventName w) log
               ++ (ConsoleLog [Lit "🔄 Auto-refreshing game "; Interp (VNumber (NInt 7));
                               Lit " due to "; Interp (VString (tag (eventName w)))] None
                   :: [ConsoleLog [Lit "refresh"] None])
               ++ [ConsoleLog [Lit "📡 Event: "; Interp (VString (tag (eventName w)))]
                     (Some (eventDataOf (eventName w) log))])
            (filter (forGame (Some (NInt 7)))
               [Demo.liveLog 7; Demo.liveLog 5; Demo.liveLog 7]),
          inr tt))
    (@useGameEventRefresh Demo.env (NInt 7) Demo.refresh).
Proof.
  apply (@refresh_runs_once_per_log_of_the_game Demo.env (NInt 7) Demo.refresh
           [ConsoleLog [Lit "refresh"] None]
           [Demo.liveLog 7; Demo.liveLog 5; Demo.liveLog 7]).
  reflexivity.
Defined.

End SubscriptionMore.

(** * More on the historical fetch *)
Module HistoryMore.
Import JS Eff GameEvents Observations EffFacts NumberFacts SubscriptionFacts HistoryFacts.
Local Open Scope eff_scope.

Section WithEnv.
Context `{Env}.

Lemma entryOf_more (target : number) (log : RawLog) (logs : list RawLog)
    (event : GameEventData) :
  entryOf target logs event -> entryOf target (log :: logs) event.
Proof.
  intros (l & id & Hin & Hrest). exists l, id. split; [right; exact Hin | exact Hrest].
Qed.

Lemma matchingEntries_sound (target : number) (logs : list RawLog) :
  Forall (entryOf target logs) (matchingEntries truthyAndSame target logs).
Proof.
  induction logs as [|log logs IH]; [constructor|].
  cbn [matchingEntries flat_map]. apply Forall_app. split.
  - unfold matchingEntry.
    destruct (decodeEventLog _ _ _) as [e|[name [a|]]] eqn:Hdec;
      cbn [decoded_args decoded_eventName]; try constructor.
    destruct (args_gameId a) as [id|] eqn:Hid; [|constructor].
    destruct (truthyAndSame id target) eqn:Htest; constructor; [|constructor].
    unfold truthyAndSame, sameAsNumber in Htest. cbn [truthy] in Htest.
    apply andb_true_iff in Htest. destruct Htest as [Hnz Hsame].
    exists log, id. cbn [type args blockNumber transactionHash gameId].
    repeat split; try assumption; try (left; reflexivity).
    intros ->. discriminate Hnz.
  - eapply Forall_impl; [|exact IH]. intros event. apply entryOf_more.
Qed.

Lemma matchingEntries_length (same : Z -> number -> bool) (target : number)
    (logs : list RawLog) :
  (List.length (matchingEntries same target logs) <= List.length logs)%nat.
Proof.
  induction logs as [|log logs IH]; [apply Nat.le_refl|].
  cbn [matchingEntries flat_map]. rewrite length_app. cbn [List.length].
  fold (matchingEntries same target logs).
  assert (Hone : (List.length (matchingEntry same target log) <= 1)%nat).
  { unfold matchingEntry.
    destruct (decodeEventLog _ _ _) as [e|[name [a|]]]; cbn [decoded_args]; auto.
    destruct (args_gameId a); auto. destruct (same _ _); auto. }
  lia.
Qed.

(** X12. Every record the fetch returns is the decoding of one of the logs the
    range query returned, with the block number and the transaction hash of
    that log; its [gameId] is the one of its arguments, is not [0n], and
    converts with [Number] to the target. The fetch returns no more records
    than there are logs. *)
Theorem history_records_come_from_the_range
    (client : PublicClient) (target : number) (fromBlock : Z) (logs : list RawLog) :
  getLogs client (rangeQuery fromBlock) = inr logs ->
  exists events,
    fetchEvents (Some client) target fromBlock = ret events
    /\ Forall (entryOf target logs) events
    /\ (List.length events <= List.length logs)%nat.
Proof.
  intros Hlogs. rewrite fetchEvents_run, Hlogs.
  eexists. split; [reflexivity|]. split.
  - apply matchingEntries_sound.
  - apply matchingEntries_length.
Qed.

(** X13. The history of two ranges put end to end is the history of the first
    followed by the history of the second: the fetch treats each log on its
    own and keeps the order of the logs. *)
Theorem history_of_concatenated_ranges
    (target : number) (fromBlock : Z) (logs1 logs2 : list RawLog) :
  exists events1 events2,
    fetchEvents (Some (clientReturning logs1)) target fromBlock = ret events1
    /\ fetchEvents (Some (clientReturning logs2)) target fromBlock = ret events2
    /\ fetchEvents (Some (clientReturning (logs1 ++ logs2))) target fromBlock
       = ret (events1 ++ events2).
Proof.
  rewrite !fetchEvents_run. cbn [clientReturning getLogs].
  do 2 eexists. split; [reflexivity|]. split; [reflexivity|].
  rewrite matchingEntries_app. reflexivity.
Qed.

(** X14. A log that decodes to an event without a game identifier (no arguments,
    or arguments without [gameId]) is left out of the result, for every
    target: the fetch returns what it returns on the range without that log,
    and the mapping step is not reached for it, so nothing is thrown. *)
Theorem logs_without_a_game_are_dropped
    (client : PublicClient) (target : number) (fromBlock : Z)
    (pre post : list RawLog) (log : RawLog) :
  getLogs client (rangeQuery fromBlock) = inr (pre ++ log :: post) ->
  decodesWithoutGame log = true ->
  fetchEvents (Some client) target fromBlock
  = fetchEvents (Some (clientReturning (pre ++ post))) target fromBlock
  /\ trace (fetchEvents (Some client) target fromBlock) = [].
Proof.
  intros Hlogs Hbare. rewrite !fetchEvents_run, Hlogs. cbn [clientReturning getLogs].
  assert (Hdrop : matchingEntry truthyAndSame target log = []).
  { unfold matchingEntry, decodesWithoutGame in *.
    destruct (decodeEventLog _ _ _) as [e|[name [a|]]]; cbn [decoded_args] in *;
      try reflexivity.
    destruct (args_gameId a); [discriminate Hbare | reflexivity]. }
  rewrite (matchingEntries_drop _ _ _ _ _ Hdrop). split; reflexivity.
Qed.

(** X16. A target that is [NaN] or a number with a fraction is the identifier of
    no game: a handler watching it does nothing on any batch, and the fetch
    for it returns the empty list whatever the client and the logs. *)
Theorem non_integer_target_matches_nothing
    (target : number) (onEvent : option EventCallback) (showToasts : bool)
    (eventName : GameEventType) (logs : list Log)
    (publicClient : option PublicClient) (fromBlock : Z) :
  neverAnIdentifier target = true ->
  handleEvent (Some target) onEvent showToasts eventName logs = ret tt
  /\ outcome (fetchEvents publicClient target fromBlock) = inr [].
Proof.
  intros Hnever. split.
  - unfold handleEvent. induction logs as [|log logs IH]; [reflexivity|].
    cbn [forEach]. cbv zeta in *.
    rewrite (SubscriptionMore.never_an_identifier _ _ Hnever). cbn [negb].
    rewrite bind_ret_l. exact IH.
  - destruct publicClient as [client|]; [|reflexivity].
    rewrite fetchEvents_run. destruct (getLogs _ _) as [e|raw]; [reflexivity|].
    replace (matchingEntries truthyAndSame target raw) with (@nil GameEventData);
      [reflexivity|].
    unfold matchingEntries. induction raw as [|l raw IH]; [reflexivity|].
    cbn [flat_map]. rewrite <- IH, app_nil_r.
    unfold matchingEntry.
    destruct (decodeEventLog _ _ _) as [e|[name [a|]]]; cbn [decoded_args]; try reflexivity.
    destruct (args_gameId a) as [id|]; [|reflexivity].
    unfold truthyAndSame, sameAsNumber.
    change (BigIntToNumber id) with (Number (Some id)).
    rewrite (SubscriptionMore.never_an_identifier (Some id) _ Hnever).
    rewrite andb_false_r. reflexivity.
Qed.


End WithEnv.

(** A run of X12's theorem. The history of game 7 over the demo range: one record, of the first
    log. *)
Lemma history_records_come_from_the_range_witness :
  exists events,
    @fetchEvents Demo.env (Some (Demo.clientWith Demo.range)) (NInt 7) 0 = ret events
    /\ Forall (@entryOf Demo.env (NInt 7) Demo.range) events
    /\ (List.length events <= List.length Demo.range)%nat.
Proof.
  apply (@history_records_come_from_the_range Demo.env (Demo.clientWith Demo.range)
           (NInt 7) 0 Demo.range).
  reflexivity.
Defined.

(** A run of X14's theorem. A range with an event without arguments between two moves of game 7. *)
Lemma logs_without_a_game_are_dropped_witness :
  @decodesWithoutGame envMore (Demo.rawLog "paused" 11) = true
  /\ @fetchEvents envMore
       (Some (clientReturning
                [Demo.rawLog "move#7" 10; Demo.rawLog "paused" 11; Demo.rawLog "fee#30" 12]))
       (NInt 7) 0
     = @fetchEvents envMore
         (Some (clientReturning [Demo.rawLog "move#7" 10; Demo.rawLog "fee#30" 12]))
         (NInt 7) 0.
Proof.
  split; [reflexivity|].
  apply (@logs_without_a_game_are_dropped envMore
           (clientReturning
              [Demo.rawLog "move#7" 10; Demo.rawLog "paused" 11; Demo.rawLog "fee#30" 12])
           (NInt 7) 0 [Demo.rawLog "move#7" 10] [Demo.rawLog "fee#30" 12]
           (Demo.rawLog "paused" 11)).
  - reflexivity.
  - reflexivity.
Defined.

(** A run of X16's theorem. Watching [NaN]: nothing is handled and the history is empty. *)
Lemma non_integer_target_matches_nothing_witness :
  @handleEvent Demo.env (Some NaN) (Some Demo.printEvent) true MoveMade
    [Demo.liveLog 7; Demo.liveLog 0]
  = ret tt
  /\ outcome (@fetchEvents Demo.env (Some (Demo.clientWith Demo.range)) NaN 0) = inr [].
Proof.
  apply (@non_integer_target_matches_nothing Demo.env NaN (Some Demo.printEvent) true
           MoveMade [Demo.liveLog 7; Demo.liveLog 0]
           (Some (Demo.clientWith Demo.range)) 0).
  reflexivity.
Defined.


End HistoryMore.
